(** * MoneyMate: the financial aggregation and advice code

    A shallow embedding of the aggregation code of the MoneyMate web client:

    - [AIRecommendations.tsx]: [loadFinancialData] (totals, savings rate,
      expense breakdown, top expense category, trend),
      [getPersonalizedTips] (the rule-based tips), [getSavingsMessage],
      [getExpenseAdvice] and the rows of the breakdown card;
    - [BudgetDashboard.tsx]: the memoised totals of the dashboard (income,
      expenses, balance, debt figures), the debt-free timeline and the
      insight cards it renders, the state updates of its handlers and the
      rows of onboarding;
    - [CategoryChart.tsx]: the data of the expense chart;
    - [OnboardingForm.tsx] and [ProfileForm.tsx]: the check of the
      onboarding form and the list of goals.

    Numbers.  The source computes on JavaScript [number]s, which are IEEE
    754 binary64 values.  Two embeddings are used.  Where a function only
    compares stored numbers or applies the source's own formula once, its
    numbers are exact rationals in canonical form ([Qc], Leibniz equality).
    Where the result depends on the rounding of a sum or of a quotient (the
    totals as sums in row order, the breakdown against the total, the
    debt-free timeline, the snapshot under a reordering of the rows), the
    functions are embedded again in [Binary64] on primitive binary64
    numbers.  A division the source guards by a positive divisor is a
    division of rationals; one it does not guard gives a [quotient], which
    may be an infinity or NaN.

    Objects.  [expenseBreakdown] is a JavaScript object used as a map from
    category label to amount.  It is embedded as the list of its own
    properties in the order [Object.keys] enumerates them: labels that are
    array indices first, in ascending order, then the other labels in the
    order of their creation.  Labels are taken not to be members of
    [Object.prototype]. *)

From Stdlib Require Import List Ascii String Bool Arith NArith ZArith.
From Stdlib Require Import QArith Qcanon Qround.
From Stdlib Require Import Uint63 Floats.
From Stdlib Require Import Permutation Sorted Lia Lqa.
Import ListNotations.

Set Warnings "-inexact-float".

Local Open Scope string_scope.
Local Open Scope Qc_scope.

(** ** JavaScript numbers and comparisons *)

Abbreviation number := Qc (only parsing).

Definition ofZ (z : Z) : number := Q2Qc (inject_Z z).

(** [x < y] and [x > y] as the booleans the source branches on. *)
Definition ltb (x y : number) : bool :=
  match x ?= y with Lt => true | _ => false end.

Definition gtb (x y : number) : bool := ltb y x.

Definition geb (x y : number) : bool := negb (ltb x y).

(** [Math.ceil] of an exact number; on binary64 numbers it is
    [Binary64.Math_ceil] below. *)
Definition Math_ceil (x : number) : Z := Qceiling (this x).

(** A property read that may give [undefined]. *)
Abbreviation maybe_number := (option Qc) (only parsing).

(** [v || 0]: the falsy numbers are [undefined] and [0]. *)
Definition or_zero (v : maybe_number) : number :=
  match v with
  | Some x => if Qc_eq_bool x 0 then 0 else x
  | None => 0
  end.

(** [a > b] where either side may be [undefined]: a comparison with
    [undefined] (converted to NaN) is false. *)
Definition js_gt (a b : maybe_number) : bool :=
  match a, b with
  | Some x, Some y => gtb x y
  | _, _ => false
  end.

(** ** Quotients that need not be finite *)

(** The value of a division whose divisor may be zero. *)
Inductive quotient :=
| Finite (q : Qc)
| PlusInfinity
| MinusInfinity
| NotANumber.

(** [x / y].  A zero divisor gives an infinity of the sign of [x], and NaN
    for [0 / 0].  (The divisors of the embedded code are totals, sums that
    start from [0], which are never the negative zero.) *)
Definition js_div (x y : number) : quotient :=
  if Qc_eq_bool y 0
  then if gtb x 0 then PlusInfinity
       else if ltb x 0 then MinusInfinity
       else NotANumber
  else Finite (x / y).

(** [a * 100]: an infinity or NaN stays what it is. *)
Definition times100 (a : quotient) : quotient :=
  match a with
  | Finite q => Finite (q * ofZ 100)
  | other => other
  end.

(** [a > k] and [a >= k] for a finite [k]: false on NaN. *)
Definition quotient_gt (a : quotient) (k : number) : bool :=
  match a with
  | Finite q => gtb q k
  | PlusInfinity => true
  | MinusInfinity | NotANumber => false
  end.

Definition quotient_ge (a : quotient) (k : number) : bool :=
  match a with
  | Finite q => geb q k
  | PlusInfinity => true
  | MinusInfinity | NotANumber => false
  end.

(** [x.toFixed(digits)], kept as its two arguments. *)
Inductive Fixed :=
| toFixed (digits : nat) (x : quotient).

(** [x <= y] *)
Definition leb (x y : number) : bool := geb y x.

(** ** Objects used as maps from label to number *)

(** *** Array-index property names *)

(** The value of a decimal digit. *)
Definition digitValue (c : ascii) : option N :=
  let n := N_of_ascii c in
  if ((48 <=? n) && (n <=? 57))%N then Some (n - 48)%N else None.

(** The value of a string of decimal digits, read after [acc]. *)
Fixpoint decimalValue (s : string) (acc : N) : option N :=
  match s with
  | EmptyString => Some acc
  | String c rest =>
      match digitValue c with
      | Some d => decimalValue rest (acc * 10 + d)%N
      | None => None
      end
  end.

(** A property name is an array index when it is the canonical decimal
    numeral (no sign, no leading zero) of an integer from 0 to 2^32 - 2. *)
Definition arrayIndex (k : string) : option N :=
  match k with
  | EmptyString => None
  | String c rest =>
      if Ascii.eqb c "0" && negb (String.eqb rest EmptyString) then None
      else match decimalValue k 0 with
           | Some n => if (n <? 2 ^ 32 - 1)%N then Some n else None
           | None => None
           end
  end.

Module JsObject.

(** The own properties of an object, in the order [Object.keys] and
    [Object.entries] enumerate them: the array indices in ascending order
    first, then the other names in the order they were created. *)
Definition obj (V : Type) := list (string * V).

Definition t := obj number.

Definition empty {V : Type} : obj V := [].

(** [o[k]] *)
Fixpoint get {V : Type} (o : obj V) (k : string) : option V :=
  match o with
  | [] => None
  | (k', v) :: rest => if String.eqb k' k then Some v else get rest k
  end.

(** Assignment to an existing property: it keeps its place. *)
Fixpoint replace {V : Type} (o : obj V) (k : string) (v : V) : obj V :=
  match o with
  | [] => []
  | (k', v') :: rest =>
      if String.eqb k' k then (k', v) :: rest else (k', v') :: replace rest k v
  end.

(** Whether a new property [k] is enumerated before the existing [k']: an
    array index comes before every larger index and before every other
    name; another name comes before nothing. *)
Definition precedes (k k' : string) : bool :=
  match arrayIndex k, arrayIndex k' with
  | Some n, Some n' => (n <? n')%N
  | Some _, None => true
  | None, _ => false
  end.

(** Creation of a property. *)
Fixpoint place {V : Type} (o : obj V) (k : string) (v : V) : obj V :=
  match o with
  | [] => [(k, v)]
  | (k', v') :: rest =>
      if precedes k k' then (k, v) :: (k', v') :: rest
      else (k', v') :: place rest k v
  end.

(** [o[k] = v] *)
Definition set {V : Type} (o : obj V) (k : string) (v : V) : obj V :=
  match get o k with
  | Some _ => replace o k v
  | None => place o k v
  end.

(** [Object.keys(o)] *)
Definition keys {V : Type} (o : obj V) : list string := map fst o.

(** [Object.values(o)] *)
Definition values {V : Type} (o : obj V) : list V := map snd o.

(** [Object.entries(o)] *)
Definition entries {V : Type} (o : obj V) : list (string * V) := o.

End JsObject.

(** ** Sorting by amount, largest first *)

(** [l.sort((a, b) => amountOf(b) - amountOf(a))].  [Array.prototype.sort]
    is stable, so with this comparator the result is fixed: the elements in
    descending order of amount, those of equal amount in the order they had.
    It is computed here by inserting the elements one after the other. *)
Section SortByAmount.

Context {A : Type} (amountOf : A -> number).

(** Put [x] behind every element that is not smaller. *)
Fixpoint insertByAmount (x : A) (sorted : list A) : list A :=
  match sorted with
  | [] => [x]
  | y :: rest =>
      if ltb (amountOf y) (amountOf x)
      then x :: y :: rest
      else y :: insertByAmount x rest
  end.

Definition sortByAmount (l : list A) : list A :=
  fold_left (fun sorted x => insertByAmount x sorted) l [].

(** No earlier element is smaller than a later one. *)
Definition descending (l : list A) : Prop :=
  StronglySorted (fun a b => amountOf b <= amountOf a) l.

(** Keeping the best element so far: a later one replaces it only when
    strictly larger. *)
Definition pickLarger (best x : A) : A :=
  if gtb (amountOf x) (amountOf best) then x else best.

End SortByAmount.

(** ** Records of [BudgetDashboard.tsx] *)

Inductive TransactionType := income | expense.

Definition TransactionType_eqb (a b : TransactionType) : bool :=
  match a, b with
  | income, income | expense, expense => true
  | _, _ => false
  end.

Module Transaction.
Record t := mk {
  id : string;
  type : TransactionType;
  amount : number;
  category : string;
  description : string;
  date : string
}.
End Transaction.

Module Debt.
Record t := mk {
  id : string;
  amount : number;
  interestRate : number;
  minimumPayment : number;
  description : string;
  date : string
}.
End Debt.

(** ** [AIRecommendations.tsx] *)

Module AIRecommendations.

Inductive Trend := increasing | decreasing | stable.

Record FinancialData := mkFinancialData {
  totalIncome : number;
  totalExpenses : number;
  balance : number;
  savingsRate : number;
  expenseBreakdown : JsObject.t;
  topExpenseCategory : string;
  biggestExpense : number;
  monthlyTrend : Trend
}.

(** [l.reduce((sum, t) => sum + t.amount, 0)] *)
Definition sumAmounts (l : list Transaction.t) : number :=
  fold_left (fun sum t => sum + Transaction.amount t) l 0.

(** The [forEach] that fills [expenseBreakdown]. *)
Definition addExpense (expenseBreakdown : JsObject.t) (e : Transaction.t)
  : JsObject.t :=
  JsObject.set expenseBreakdown (Transaction.category e)
    (or_zero (JsObject.get expenseBreakdown (Transaction.category e))
     + Transaction.amount e).

Definition breakdownOf (expenses : list Transaction.t) : JsObject.t :=
  fold_left addExpense expenses JsObject.empty.

(** [Object.keys(expenseBreakdown).reduce((a, b) =>
      expenseBreakdown[a] > expenseBreakdown[b] ? a : b, 'Other')] *)
Definition pickTop (expenseBreakdown : JsObject.t) (a b : string) : string :=
  if js_gt (JsObject.get expenseBreakdown a) (JsObject.get expenseBreakdown b)
  then a else b.

Definition topCategoryOf (expenseBreakdown : JsObject.t) : string :=
  fold_left (pickTop expenseBreakdown) (JsObject.keys expenseBreakdown) "Other".

(** The object handed to [setFinancialData]: the body of the
    [transactions.length > 0] branch. *)
Definition financialDataOf (transactions : list Transaction.t) : FinancialData :=
  let income :=
    filter (fun t => TransactionType_eqb (Transaction.type t) income) transactions in
  let expenses :=
    filter (fun t => TransactionType_eqb (Transaction.type t) expense) transactions in
  let totalIncome := sumAmounts income in
  let totalExpenses := sumAmounts expenses in
  let balance := totalIncome - totalExpenses in
  let savingsRate :=
    if gtb totalIncome 0 then (balance / totalIncome) * ofZ 100 else 0 in
  let expenseBreakdown := breakdownOf expenses in
  let topExpenseCategory := topCategoryOf expenseBreakdown in
  let biggestExpense :=
    or_zero (JsObject.get expenseBreakdown topExpenseCategory) in
  let monthlyTrend := if gtb balance 0 then increasing else decreasing in
  {| totalIncome := totalIncome;
     totalExpenses := totalExpenses;
     balance := balance;
     savingsRate := savingsRate;
     expenseBreakdown := expenseBreakdown;
     topExpenseCategory := topExpenseCategory;
     biggestExpense := biggestExpense;
     monthlyTrend := monthlyTrend |}.

(** [loadFinancialData], from the fetched rows on: the component state
    [financialData] is replaced only when there is at least one row. *)
Definition loadFinancialData (transactions : list Transaction.t)
    (financialData : option FinancialData) : option FinancialData :=
  if (0 <? List.length transactions)%nat
  then Some (financialDataOf transactions)
  else financialData.

(** *** Tips *)

Inductive Icon := PiggyBank | Target | AlertCircle | CheckCircle.

(** A tip's description is a fixed text, or the template
    [`${category} is taking up ${((amount / total) * 100).toFixed(1)}% of
    your spending`], kept with its three arguments. *)
Inductive Description :=
| Text (s : string)
| TakingUp (category : string) (amount total : number).

Record Tip := mkTip {
  icon : Icon;
  title : string;
  description : Description;
  action : string
}.

Definition boostSavings : Tip :=
  {| icon := PiggyBank;
     title := "Boost Your Savings";
     description := Text "Aim to save 20% of your income for financial security";
     action := "Set up automatic transfers to a savings account" |}.

Definition optimizeBiggest (data : FinancialData) : Tip :=
  {| icon := Target;
     title := "Optimize Your Biggest Expense";
     description :=
       TakingUp (topExpenseCategory data) (biggestExpense data) (totalExpenses data);
     action := "Look for ways to reduce this category" |}.

Definition addressOverspending : Tip :=
  {| icon := AlertCircle;
     title := "Address Overspending";
     description := Text "You're spending more than you earn";
     action := "Focus on reducing expenses or increasing income" |}.

Definition doingGreat : Tip :=
  {| icon := CheckCircle;
     title := "You're Doing Great!";
     description := Text "Your finances are well-balanced";
     action := "Consider investing your extra savings" |}.

(** [tips.push(x)] *)
Definition push (tips : list Tip) (x : Tip) : list Tip := (tips ++ [x])%list.

Definition savingsLow (data : FinancialData) : bool :=
  ltb (savingsRate data) (ofZ 20).

Definition bigExpense (data : FinancialData) : bool :=
  gtb (biggestExpense data) (totalExpenses data * Q2Qc (4 # 10)).

Definition overspent (data : FinancialData) : bool :=
  ltb (balance data) 0.

Definition getPersonalizedTips (data : FinancialData) : list Tip :=
  let tips := [] in
  let tips := if savingsLow data then push tips boostSavings else tips in
  let tips := if bigExpense data then push tips (optimizeBiggest data) else tips in
  let tips := if overspent data then push tips addressOverspending else tips in
  let tips := if (List.length tips =? 0)%nat then push tips doingGreat else tips in
  tips.

(** *** What the page shows besides the tips *)

Definition getSavingsMessage (savingsRate : number) : string :=
  if geb savingsRate (ofZ 30) then "You're a savings superstar! 🌟"
  else if geb savingsRate (ofZ 20) then "Great job with your savings! 💪"
  else if geb savingsRate (ofZ 10) then "You're on the right track! 👍"
  else if geb savingsRate 0 then "You're breaking even - let's improve! 📈"
  else "Let's get you back on track! 🎯".

Definition getExpenseAdvice (category : string) (amount totalExpenses : number)
  : string :=
  let percentage := times100 (js_div amount totalExpenses) in
  if String.eqb category "Food & Dining" && quotient_gt percentage (ofZ 30)
  then "Consider meal prepping to cut dining costs! 🍳"
  else if String.eqb category "Transportation" && quotient_gt percentage (ofZ 25)
  then "Look into carpooling or public transport options! 🚌"
  else if String.eqb category "Shopping" && quotient_gt percentage (ofZ 20)
  then "Try the 24-hour rule before making purchases! 🛍️"
  else if String.eqb category "Entertainment" && quotient_gt percentage (ofZ 15)
  then "Explore free activities in your area! 🎭"
  else "This category looks well-managed! ✅".

(** The "Status" cell of the savings card:
    [savingsRate >= 20 ? 'On Track' : 'Needs Work']. *)
Definition savingsStatus (data : FinancialData) : string :=
  if geb (savingsRate data) (ofZ 20) then "On Track" else "Needs Work".

(** One row of "Where Your Money Goes". *)
Record BreakdownRow := mkBreakdownRow {
  rowCategory : string;
  rowAmount : number;
  rowPercentage : quotient;
  rowAdvice : string
}.

(** [Object.entries(expenseBreakdown).sort(([,a], [,b]) => b - a).map(...)] *)
Definition breakdownRows (data : FinancialData) : list BreakdownRow :=
  map (fun entry =>
         let category := fst entry in
         let amount := snd entry in
         let percentage := times100 (js_div amount (totalExpenses data)) in
         {| rowCategory := category;
            rowAmount := amount;
            rowPercentage := percentage;
            rowAdvice := getExpenseAdvice category amount (totalExpenses data) |})
      (sortByAmount snd (JsObject.entries (expenseBreakdown data))).

End AIRecommendations.

(** ** [BudgetDashboard.tsx] *)

Module BudgetDashboard.

Record Totals := mkTotals {
  totalIncome : number;
  totalExpenses : number;
  balance : number;
  totalDebt : number;
  monthlyDebtPayment : number;
  availableForDebt : number
}.

(** The [useMemo] over [transactions] and [debts]. *)
Definition totals (transactions : list Transaction.t) (debts : list Debt.t)
  : Totals :=
  let income :=
    fold_left (fun sum t => sum + Transaction.amount t)
      (filter (fun t => TransactionType_eqb (Transaction.type t) income) transactions)
      0 in
  let expenses :=
    fold_left (fun sum t => sum + Transaction.amount t)
      (filter (fun t => TransactionType_eqb (Transaction.type t) expense) transactions)
      0 in
  let totalDebt := fold_left (fun sum debt => sum + Debt.amount debt) debts 0 in
  let monthlyDebtPayment :=
    fold_left (fun sum debt => sum + Debt.minimumPayment debt) debts 0 in
  let availableForDebt := income - expenses in
  {| totalIncome := income;
     totalExpenses := expenses;
     balance := income - expenses;
     totalDebt := totalDebt;
     monthlyDebtPayment := monthlyDebtPayment;
     availableForDebt := availableForDebt |}.

(** The "Debt Analysis" status: [availableForDebt >= monthlyDebtPayment]. *)
Definition canAffordPayments (t : Totals) : bool :=
  geb (availableForDebt t) (monthlyDebtPayment t).

(** The text of the "Debt-Free Timeline" card: a number of months, or
    'Focus on income first'.  The card belongs to the debt strategy, which
    is rendered only under [debtStrategyShown] below. *)
Inductive Timeline :=
| Months (n : Z)
| FocusOnIncomeFirst.

Definition debtFreeTimeline (t : Totals) : Timeline :=
  if gtb (availableForDebt t) (monthlyDebtPayment t)
  then Months (Math_ceil (totalDebt t / (availableForDebt t - monthlyDebtPayment t)))
  else FocusOnIncomeFirst.

(** *** Rows of the store and state updates *)

(** A row of the [transactions] table as the store returns it; its
    description may be null. *)
Record TransactionRow := mkTransactionRow {
  row_id : string;
  row_type : TransactionType;
  row_amount : number;
  row_category : string;
  row_description : option string;
  row_date : string
}.

(** The transformation of [loadUserData] and [handleAddTransaction]:
    [description: t.description || ''] and the other fields as they are. *)
Definition toTransaction (t : TransactionRow) : Transaction.t :=
  {| Transaction.id := row_id t;
     Transaction.type := row_type t;
     Transaction.amount := row_amount t;
     Transaction.category := row_category t;
     Transaction.description :=
       match row_description t with
       | Some text => if String.eqb text EmptyString then EmptyString else text
       | None => EmptyString
       end;
     Transaction.date := row_date t |}.

(** [handleAddTransaction], from the answer of the store on: [data] is the
    inserted row, [None] when the store reported an error.  The result is
    the new value of the state [transactions]. *)
Definition handleAddTransaction (user : bool) (data : option TransactionRow)
    (transactions : list Transaction.t) : list Transaction.t :=
  if negb user then transactions
  else match data with
       | None => transactions
       | Some data => toTransaction data :: transactions
       end.

(** [handleDeleteTransaction]: [deleted] tells whether the store deleted
    without error. *)
Definition handleDeleteTransaction (user : bool) (deleted : bool) (id : string)
    (transactions : list Transaction.t) : list Transaction.t :=
  if negb user then transactions
  else if negb deleted then transactions
  else filter (fun t => negb (String.eqb (Transaction.id t) id)) transactions.

(** [l.filter((_, i) => i !== index)], the positions counted from [i]. *)
Fixpoint filterOtherIndex {A : Type} (index : nat) (l : list A) (i : nat) : list A :=
  match l with
  | [] => []
  | x :: rest =>
      if negb (Nat.eqb i index)
      then x :: filterOtherIndex index rest (S i)
      else filterOtherIndex index rest (S i)
  end.

(** [handleDeleteDebt]: nothing happens without a user or when
    [debts[index]] is undefined. *)
Definition handleDeleteDebt (user : bool) (deleted : bool) (index : nat)
    (debts : list Debt.t) : list Debt.t :=
  match nth_error debts index with
  | None => debts
  | Some debtToDelete =>
      if negb user then debts
      else if negb deleted then debts
      else filterOtherIndex index debts 0
  end.

(** *** The insight cards *)

(** The debt strategy is shown when [totalDebt > 0]. *)
Definition debtStrategyShown (t : Totals) : bool := gtb (totalDebt t) 0.

(** The savings rate of the income insights:
    [((balance / totalIncome) * 100).toFixed(1)]. *)
Definition savingsRateShown (t : Totals) : Fixed :=
  toFixed 1 (times100 (js_div (balance t) (totalIncome t))).

(** The income insights are rendered under
    [transactions.filter(t => t.type === 'income').length > 0], the expense
    insights under the same test on the expense rows. *)
Definition incomeInsightsShown (transactions : list Transaction.t) : bool :=
  (0 <? List.length
          (filter (fun t => TransactionType_eqb (Transaction.type t) income)
             transactions))%nat.

Definition expenseInsightsShown (transactions : list Transaction.t) : bool :=
  (0 <? List.length
          (filter (fun t => TransactionType_eqb (Transaction.type t) expense)
             transactions))%nat.

(** The heading of the "AI Assessment", a part of the income insights. *)
Definition incomeAssessment (t : Totals) : string :=
  if geb (balance t) 0
  then if quotient_ge (times100 (js_div (balance t) (totalIncome t))) (ofZ 20)
       then "Excellent Financial Health"
       else "Good Financial Standing"
  else "Needs Attention".

(** The "Status", a part of the expense insights. *)
Definition spendingStatus (t : Totals) : string :=
  if leb (totalExpenses t) (totalIncome t * Q2Qc (8 # 10)) then "Excellent"
  else if leb (totalExpenses t) (totalIncome t) then "Good"
  else "Over Budget".

(** The "Status" of the debt analysis. *)
Definition debtStatus (t : Totals) : string :=
  if canAffordPayments t then "Can Afford Payments" else "Need More Income".

(** The heading and the status as the page shows them: nothing when their
    insights are not rendered. *)
Definition incomeAssessmentShown (transactions : list Transaction.t)
    (debts : list Debt.t) : option string :=
  if incomeInsightsShown transactions
  then Some (incomeAssessment (totals transactions debts))
  else None.

Definition spendingStatusShown (transactions : list Transaction.t)
    (debts : list Debt.t) : option string :=
  if expenseInsightsShown transactions
  then Some (spendingStatus (totals transactions debts))
  else None.

(** *** Onboarding *)





End BudgetDashboard.

(** ** [CategoryChart.tsx] *)

Module CategoryChart.

Record Item := mkItem {
  category : string;
  amount : number;
  percentage : Fixed
}.

Definition EXPENSE_COLORS : list string :=
  [ "hsl(0, 84%, 60%)"; "hsl(20, 84%, 60%)"; "hsl(40, 84%, 60%)";
    "hsl(60, 84%, 60%)"; "hsl(280, 84%, 60%)"; "hsl(300, 84%, 60%)";
    "hsl(320, 84%, 60%)" ].

(** The [forEach] that fills [categoryTotals]. *)
Definition addToCategory (categoryTotals : JsObject.t) (e : Transaction.t)
  : JsObject.t :=
  JsObject.set categoryTotals (Transaction.category e)
    (or_zero (JsObject.get categoryTotals (Transaction.category e))
     + Transaction.amount e).

(** The memoised [expenseData]. *)
Definition expenseData (transactions : list Transaction.t) : list Item :=
  let expenses :=
    filter (fun t => TransactionType_eqb (Transaction.type t) expense) transactions in
  let categoryTotals := fold_left addToCategory expenses JsObject.empty in
  sortByAmount amount
    (map (fun entry =>
            {| category := fst entry;
               amount := snd entry;
               percentage :=
                 toFixed 1
                   (times100
                      (js_div (snd entry)
                         (fold_left (fun sum t => sum + Transaction.amount t)
                            expenses 0))) |})
         (JsObject.entries categoryTotals)).

(** [expenseData.reduce((sum, item) => sum + item.amount, 0)] *)
Definition totalExpenses (expenseData : list Item) : number :=
  fold_left (fun sum item => sum + amount item) expenseData 0.


(** The fill of the slice at [index]:
    [EXPENSE_COLORS[index % EXPENSE_COLORS.length]]. *)
Definition fill (index : nat) : option string :=
  nth_error EXPENSE_COLORS (index mod List.length EXPENSE_COLORS).

End CategoryChart.

(** ** [OnboardingForm.tsx] *)

Module OnboardingForm.



End OnboardingForm.

(** ** [ProfileForm.tsx] *)

Module ProfileForm.

(** [handleGoalChange]: the new value of [financialGoals]. *)
Definition handleGoalChange (goal : string) (checked : bool)
    (financialGoals : list string) : list string :=
  if checked
  then (financialGoals ++ [goal])%list
  else filter (fun g => negb (String.eqb g goal)) financialGoals.

(** [financialGoals.includes(goal)], which the checkbox shows. *)
Definition includes (financialGoals : list string) (goal : string) : bool :=
  existsb (fun g => String.eqb g goal) financialGoals.

End ProfileForm.

(** ** The same code on binary64 numbers *)

(** The numbers of the source are IEEE 754 binary64 values: a [reduce] that
    adds amounts rounds after every addition, in the order of the rows, and
    a quotient is rounded before [Math.ceil] sees it.  The functions whose
    result depends on that are embedded a second time, on primitive
    binary64 numbers, with the same names. *)

Module Binary64.

Local Open Scope float_scope.

(** [x > y]: false when either side is NaN. *)
Definition gtb (x y : float) : bool := (y <? x).

(** [v || 0]: the falsy numbers are [undefined], [0], [-0] and NaN. *)
Definition or_zero (v : option float) : float :=
  match v with
  | Some x => if (x =? 0) || is_nan x then 0 else x
  | None => 0
  end.

(** [a > b] where either side may be [undefined]. *)
Definition js_gt (a b : option float) : bool :=
  match a, b with
  | Some x, Some y => gtb x y
  | _, _ => false
  end.

(** The binary64 number of a whole number from 0 to 2^53. *)
Definition wholeNumber (z : Z) : float := of_uint63 (Uint63.of_Z z).

(** [Math.ceil(x)]: a zero, an infinity, NaN and a number without
    fractional bits are returned as they are; otherwise the magnitude
    [m * 2^e], [e < 0], is divided by [2^-e], and a negative number is
    rounded towards zero (down to [-0]). *)
Definition Math_ceil (x : float) : float :=
  match Prim2SF x with
  | S754_finite negative m e =>
      if (0 <=? e)%Z then x
      else
        let whole := (Z.pos m / 2 ^ (- e))%Z in
        let fraction := (Z.pos m mod 2 ^ (- e))%Z in
        if negative then - wholeNumber whole
        else wholeNumber (if (fraction =? 0)%Z then whole else (whole + 1)%Z)
  | _ => x
  end.

Module Transaction.
Record t := mk {
  id : string;
  type : TransactionType;
  amount : float;
  category : string;
  description : string;
  date : string
}.
End Transaction.

Module Debt.
Record t := mk {
  id : string;
  amount : float;
  interestRate : float;
  minimumPayment : float;
  description : string;
  date : string
}.
End Debt.

(** *** [AIRecommendations.tsx] *)

Module AIRecommendations.

Inductive Trend := increasing | decreasing | stable.

Record FinancialData := mkFinancialData {
  totalIncome : float;
  totalExpenses : float;
  balance : float;
  savingsRate : float;
  expenseBreakdown : JsObject.obj float;
  topExpenseCategory : string;
  biggestExpense : float;
  monthlyTrend : Trend
}.

(** [l.reduce((sum, t) => sum + t.amount, 0)] *)
Definition sumAmounts (l : list Transaction.t) : float :=
  fold_left (fun sum t => sum + Transaction.amount t) l 0.

(** The [forEach] that fills [expenseBreakdown]. *)
Definition addExpense (expenseBreakdown : JsObject.obj float) (e : Transaction.t)
  : JsObject.obj float :=
  JsObject.set expenseBreakdown (Transaction.category e)
    (or_zero (JsObject.get expenseBreakdown (Transaction.category e))
     + Transaction.amount e).

Definition breakdownOf (expenses : list Transaction.t) : JsObject.obj float :=
  fold_left addExpense expenses JsObject.empty.

(** [Object.keys(expenseBreakdown).reduce((a, b) =>
      expenseBreakdown[a] > expenseBreakdown[b] ? a : b, 'Other')] *)
Definition pickTop (expenseBreakdown : JsObject.obj float) (a b : string) : string :=
  if js_gt (JsObject.get expenseBreakdown a) (JsObject.get expenseBreakdown b)
  then a else b.

Definition topCategoryOf (expenseBreakdown : JsObject.obj float) : string :=
  fold_left (pickTop expenseBreakdown) (JsObject.keys expenseBreakdown) "Other".

(** The object handed to [setFinancialData]. *)
Definition financialDataOf (transactions : list Transaction.t) : FinancialData :=
  let income :=
    filter (fun t => TransactionType_eqb (Transaction.type t) income) transactions in
  let expenses :=
    filter (fun t => TransactionType_eqb (Transaction.type t) expense) transactions in
  let totalIncome := sumAmounts income in
  let totalExpenses := sumAmounts expenses in
  let balance := totalIncome - totalExpenses in
  let savingsRate :=
    if gtb totalIncome 0 then (balance / totalIncome) * 100 else 0 in
  let expenseBreakdown := breakdownOf expenses in
  let topExpenseCategory := topCategoryOf expenseBreakdown in
  let biggestExpense :=
    or_zero (JsObject.get expenseBreakdown topExpenseCategory) in
  let monthlyTrend := if gtb balance 0 then increasing else decreasing in
  {| totalIncome := totalIncome;
     totalExpenses := totalExpenses;
     balance := balance;
     savingsRate := savingsRate;
     expenseBreakdown := expenseBreakdown;
     topExpenseCategory := topExpenseCategory;
     biggestExpense := biggestExpense;
     monthlyTrend := monthlyTrend |}.

(** [loadFinancialData], from the fetched rows on: the state is replaced
    only when there is at least one row. *)
Definition loadFinancialData (transactions : list Transaction.t)
    (financialData : option FinancialData) : option FinancialData :=
  if (0 <? List.length transactions)%nat
  then Some (financialDataOf transactions)
  else financialData.

End AIRecommendations.

(** *** [BudgetDashboard.tsx] *)

Module BudgetDashboard.

Record Totals := mkTotals {
  totalIncome : float;
  totalExpenses : float;
  balance : float;
  totalDebt : float;
  monthlyDebtPayment : float;
  availableForDebt : float
}.

(** The [useMemo] over [transactions] and [debts]. *)
Definition totals (transactions : list Transaction.t) (debts : list Debt.t)
  : Totals :=
  let income :=
    fold_left (fun sum t => sum + Transaction.amount t)
      (filter (fun t => TransactionType_eqb (Transaction.type t) income) transactions)
      0 in
  let expenses :=
    fold_left (fun sum t => sum + Transaction.amount t)
      (filter (fun t => TransactionType_eqb (Transaction.type t) expense) transactions)
      0 in
  let totalDebt := fold_left (fun sum debt => sum + Debt.amount debt) debts 0 in
  let monthlyDebtPayment :=
    fold_left (fun sum debt => sum + Debt.minimumPayment debt) debts 0 in
  let availableForDebt := income - expenses in
  {| totalIncome := income;
     totalExpenses := expenses;
     balance := income - expenses;
     totalDebt := totalDebt;
     monthlyDebtPayment := monthlyDebtPayment;
     availableForDebt := availableForDebt |}.

(** The text of the "Debt-Free Timeline" card: the number [Math.ceil]
    returns, followed by "months", or 'Focus on income first'. *)
Inductive Timeline :=
| Months (n : float)
| FocusOnIncomeFirst.

Definition debtFreeTimeline (t : Totals) : Timeline :=
  if gtb (availableForDebt t) (monthlyDebtPayment t)
  then Months (Math_ceil (totalDebt t / (availableForDebt t - monthlyDebtPayment t)))
  else FocusOnIncomeFirst.

(** The card sits in the block [{totalDebt > 0 && (...)}]: without debt
    nothing is rendered. *)
Definition debtFreeTimelineShown (t : Totals) : option Timeline :=
  if gtb (totalDebt t) 0 then Some (debtFreeTimeline t) else None.

End BudgetDashboard.

(** *** Sums and rows as the specification words them *)

(** The sum of a list of numbers, added one after the other from 0. *)
Definition sumInOrder (l : list float) : float :=
  fold_left (fun sum a => sum + a) l 0.

(** The sum under one category: undefined before the first amount, and
    restarted from 0 whenever it stands at 0 or NaN. *)
Definition sumOfCategory (l : list float) : option float :=
  fold_left (fun sum a => Some (or_zero sum + a)) l None.

Definition ofType (ty : TransactionType) (transactions : list Transaction.t)
  : list Transaction.t :=
  filter (fun t => TransactionType_eqb (Transaction.type t) ty) transactions.

Definition inCategory (c : string) (l : list Transaction.t) : list Transaction.t :=
  filter (fun t => String.eqb (Transaction.category t) c) l.

(** *** Inputs used in examples *)

Definition row (id : string) (type : TransactionType) (amount : float)
    (category : string) : Transaction.t :=
  Transaction.mk id type amount category EmptyString "2025-01-15".

(** Three expenses in two categories. *)
Definition threeExpenses : list Transaction.t :=
  [ row "t1" expense 0.3 "Food & Dining";
    row "t2" expense 0.2 "Shopping";
    row "t3" expense 0.1 "Food & Dining" ].

(** Three incomes that make 0.6, and one expense of 0.6. *)
Definition threeIncomes : list Transaction.t :=
  [ row "t1" income 0.1 "Salary";
    row "t2" income 0.2 "Salary";
    row "t3" income 0.3 "Salary";
    row "t4" expense 0.6 "Shopping" ].

(** An expense of 0.6 in one category, three that make 0.6 in another. *)
Definition fourExpenses : list Transaction.t :=
  [ row "t1" expense 0.6 "Shopping";
    row "t2" expense 0.1 "Food & Dining";
    row "t3" expense 0.2 "Food & Dining";
    row "t4" expense 0.3 "Food & Dining" ].

(** One salary and no expense. *)
Definition salary (amount : float) : list Transaction.t :=
  [ row "t1" income amount "Salary" ].

(** One debt. *)
Definition loan (amount minimumPayment : float) : list Debt.t :=
  [ Debt.mk "d1" amount 5 minimumPayment "Car loan" "2025-01-01" ].

End Binary64.

(** ** Inputs used in examples *)

Definition row (id : string) (type : TransactionType) (amount : Z)
    (category : string) : Transaction.t :=
  Transaction.mk id type (ofZ amount) category "" "2025-01-15".

(** The scenario of the specification: one salary and two expenses. *)
Definition salaryFoodShopping : list Transaction.t :=
  [ row "t1" income 5000 "Salary";
    row "t2" expense 1200 "Food & Dining";
    row "t3" expense 800 "Shopping" ].

(** ** Sums as the specification words them *)

(** The sum of a list of numbers. *)
Definition sumOf (l : list number) : number := fold_right Qcplus 0 l.

Definition ofType (ty : TransactionType) (transactions : list Transaction.t)
  : list Transaction.t :=
  filter (fun t => TransactionType_eqb (Transaction.type t) ty) transactions.

Definition nonNegativeAmounts (transactions : list Transaction.t) : Prop :=
  Forall (fun t => 0 <= Transaction.amount t) transactions.

(** [m] is the least integer not below [x]. *)
Definition isCeilingOf (m : Z) (x : number) : Prop :=
  ofZ (m - 1) < x /\ x <= ofZ m.

(** The expenses of one category, and what they add up to. *)
Definition inCategory (c : string) (l : list Transaction.t) : list Transaction.t :=
  filter (fun t => String.eqb (Transaction.category t) c) l.


(** The amount a breakdown records under a label, 0 when it has none. *)
Definition amountAt (expenseBreakdown : JsObject.t) (k : string) : number :=
  or_zero (JsObject.get expenseBreakdown k).


(** ** The tips as a table of rules *)

(** The three threshold rules of [getPersonalizedTips], in the order the
    function tests them. *)
Definition thresholdRules
  : list ((AIRecommendations.FinancialData -> bool)
          * (AIRecommendations.FinancialData -> AIRecommendations.Tip)) :=
  [ (AIRecommendations.savingsLow, fun _ => AIRecommendations.boostSavings);
    (AIRecommendations.bigExpense, AIRecommendations.optimizeBiggest);
    (AIRecommendations.overspent, fun _ => AIRecommendations.addressOverspending) ].

(** The tips of the rules whose predicate holds, in table order. *)
Definition firing (data : AIRecommendations.FinancialData)
  : list AIRecommendations.Tip :=
  map (fun rule => snd rule data) (filter (fun rule => fst rule data) thresholdRules).

(** ** The dominant category as the specification words it *)

(** The category with the largest amount, the first such in key order when
    several tie; undefined for an empty breakdown. *)
Definition firstLargest (expenseBreakdown : JsObject.t) : option string :=
  match expenseBreakdown with
  | [] => None
  | first :: rest =>
      Some (fst (fold_left
                   (fun best entry => if gtb (snd entry) (snd best) then entry else best)
                   rest first))
  end.

(** Two expenses of equal amount in different categories. *)
Definition foodThenShopping : list Transaction.t :=
  [ row "t1" expense 500 "Food & Dining"; row "t2" expense 500 "Shopping" ].

(** A month with a salary and no expense. *)
Definition salaryOnly : list Transaction.t :=
  [ row "t1" income 5000 "Salary" ].

(** A month with one expense and no income. *)
Definition groceriesOnly : list Transaction.t :=
  [ row "t1" expense 100 "Food & Dining" ].

(** A salary that does not cover the one expense. *)
Definition salaryBelowRent : list Transaction.t :=
  [ row "t1" income 100 "Salary"; row "t2" expense 500 "Housing" ].

(** A refund entered as an expense with a negative amount. *)
Definition refundAsExpense : list Transaction.t :=
  [ row "t1" expense (-30) "Shopping" ].

(** One debt of 10000 with a minimum payment of 500. *)
Definition carLoan : list Debt.t :=
  [ Debt.mk "d1" (ofZ 10000) (ofZ 5) (ofZ 500) "Car loan" "2025-01-01" ].

(** * Properties *)

(** ** Numbers *)

Lemma ltb_lt (x y : number) : ltb x y = true <-> x < y.
Proof.
  unfold ltb. rewrite Qclt_alt.
  destruct (x ?= y); split; congruence.
Qed.

Lemma ltb_ge (x y : number) : ltb x y = false <-> y <= x.
Proof.
  split; intro H.
  - apply Qcnot_lt_le. intro L. apply ltb_lt in L. congruence.
  - destruct (ltb x y) eqn:E; trivial.
    apply ltb_lt in E. exfalso. exact (Qcle_not_lt _ _ H E).
Qed.

Lemma gtb_gt (x y : number) : gtb x y = true <-> y < x.
Proof. unfold gtb. apply ltb_lt. Qed.

Lemma gtb_le (x y : number) : gtb x y = false <-> x <= y.
Proof. unfold gtb. apply ltb_ge. Qed.

Lemma or_zero_Some (x : number) : or_zero (Some x) = x.
Proof.
  simpl. destruct (Qc_eq_bool x 0) eqn:E; trivial.
  symmetry. now apply Qc_eq_bool_correct.
Qed.

Lemma this_ofZ (z : Z) : (this (ofZ z) == inject_Z z)%Q.
Proof. unfold ofZ, Q2Qc, this. apply Qred_correct. Qed.

(** ** Sums *)

Section Sums.

Context {A : Type} (f : A -> number).

Lemma fold_left_plus_acc (l : list A) (a : number) :
  fold_left (fun sum x => sum + f x) l a
  = a + fold_left (fun sum x => sum + f x) l 0.
Proof.
  revert a. induction l as [|x l IH]; intro a; simpl.
  - ring.
  - rewrite IH. rewrite (IH (0 + f x)). ring.
Qed.

(** A [reduce] from 0 adds up the list. *)
Lemma reduce_sum (l : list A) :
  fold_left (fun sum x => sum + f x) l 0 = sumOf (map f l).
Proof.
  induction l as [|x l IH]; simpl; trivial.
  rewrite fold_left_plus_acc, IH. ring.
Qed.

End Sums.

Lemma sumOf_nonneg (l : list number) :
  Forall (fun x => 0 <= x) l -> 0 <= sumOf l.
Proof.
  induction 1 as [|x l Hx _ IH]; simpl.
  - apply Qcle_refl.
  - replace 0 with (0 + 0) by ring. now apply Qcplus_le_compat.
Qed.

Lemma sumAmounts_sumOf (l : list Transaction.t) :
  AIRecommendations.sumAmounts l = sumOf (map Transaction.amount l).
Proof. apply reduce_sum. Qed.

Lemma nonNegativeAmounts_ofType ty txs :
  nonNegativeAmounts txs ->
  Forall (fun x => 0 <= x) (map Transaction.amount (ofType ty txs)).
Proof.
  unfold nonNegativeAmounts, ofType. intro H.
  induction H as [|t l Ht _ IH]; simpl.
  - constructor.
  - destruct (TransactionType_eqb (Transaction.type t) ty); simpl; auto.
Qed.

(** ** The state update of [loadFinancialData] *)

Lemma loadFinancialData_rows txs st :
  txs <> [] ->
  AIRecommendations.loadFinancialData txs st
  = Some (AIRecommendations.financialDataOf txs).
Proof.
  destruct txs as [|t txs]; [congruence|reflexivity].
Qed.

(** ** The expense breakdown as a map *)

Section Assignment.

Context {V : Type}.

Lemma get_replace_same (o : JsObject.obj V) k v x :
  JsObject.get o k = Some x -> JsObject.get (JsObject.replace o k v) k = Some v.
Proof.
  induction o as [|[k' v'] o IH]; simpl; [discriminate|].
  destruct (String.eqb k' k) eqn:E; simpl; rewrite E; auto.
Qed.

Lemma get_replace_other (o : JsObject.obj V) k k' v :
  k <> k' -> JsObject.get (JsObject.replace o k v) k' = JsObject.get o k'.
Proof.
  intro N. induction o as [|[k0 v0] o IH]; simpl; trivial.
  destruct (String.eqb k0 k) eqn:E; simpl.
  - apply String.eqb_eq in E. subst k0.
    apply String.eqb_neq in N. now rewrite N.
  - now rewrite IH.
Qed.

Lemma get_place_same (o : JsObject.obj V) k v :
  JsObject.get o k = None -> JsObject.get (JsObject.place o k v) k = Some v.
Proof.
  induction o as [|[k' v'] o IH]; simpl.
  - now rewrite String.eqb_refl.
  - destruct (String.eqb k' k) eqn:E; [discriminate|]. intro H.
    destruct (JsObject.precedes k k'); simpl.
    + now rewrite String.eqb_refl.
    + rewrite E. now apply IH.
Qed.

Lemma get_place_other (o : JsObject.obj V) k k' v :
  k <> k' -> JsObject.get (JsObject.place o k v) k' = JsObject.get o k'.
Proof.
  intro N. apply String.eqb_neq in N.
  induction o as [|[k0 v0] o IH]; simpl.
  - now rewrite N.
  - destruct (JsObject.precedes k k0); simpl.
    + now rewrite N.
    + now rewrite IH.
Qed.

Lemma get_set_same (o : JsObject.obj V) k v :
  JsObject.get (JsObject.set o k v) k = Some v.
Proof.
  unfold JsObject.set. destruct (JsObject.get o k) as [x|] eqn:G.
  - eapply get_replace_same; eassumption.
  - now apply get_place_same.
Qed.

Lemma get_set_other (o : JsObject.obj V) k k' v :
  k <> k' -> JsObject.get (JsObject.set o k v) k' = JsObject.get o k'.
Proof.
  intro N. unfold JsObject.set. destruct (JsObject.get o k).
  - now apply get_replace_other.
  - now apply get_place_other.
Qed.

Lemma keys_replace (o : JsObject.obj V) k v :
  JsObject.keys (JsObject.replace o k v) = JsObject.keys o.
Proof.
  induction o as [|[k' v'] o IH]; simpl; trivial.
  destruct (String.eqb k' k); simpl; trivial.
  f_equal. exact IH.
Qed.

Lemma keys_place (o : JsObject.obj V) k v :
  Permutation (k :: JsObject.keys o) (JsObject.keys (JsObject.place o k v)).
Proof.
  induction o as [|[k' v'] o IH]; simpl.
  - apply Permutation_refl.
  - destruct (JsObject.precedes k k'); simpl.
    + apply Permutation_refl.
    + eapply perm_trans; [apply perm_swap|]. now apply perm_skip.
Qed.

Lemma In_keys_get (o : JsObject.obj V) k :
  In k (JsObject.keys o) <-> exists v, JsObject.get o k = Some v.
Proof.
  induction o as [|[k' v'] o IH]; simpl.
  - split; [tauto | intros (v & H); discriminate].
  - destruct (String.eqb k' k) eqn:E.
    + apply String.eqb_eq in E. split; eauto.
    + apply String.eqb_neq in E. rewrite <- IH. tauto.
Qed.

Lemma not_In_keys_get (o : JsObject.obj V) k :
  ~ In k (JsObject.keys o) <-> JsObject.get o k = None.
Proof.
  rewrite In_keys_get. destruct (JsObject.get o k) as [x|]; split; intro H.
  - exfalso. apply H. now exists x.
  - discriminate.
  - reflexivity.
  - intros (v & X). discriminate.
Qed.

(** An assignment creates at most the assigned key, and no key twice. *)
Lemma In_keys_set (o : JsObject.obj V) k v c :
  In c (JsObject.keys (JsObject.set o k v)) <-> c = k \/ In c (JsObject.keys o).
Proof.
  unfold JsObject.set. destruct (JsObject.get o k) as [x|] eqn:G.
  - rewrite keys_replace. split; [tauto|]. intros [->|H]; trivial.
    apply In_keys_get. now exists x.
  - split; intro H.
    + apply (Permutation_in _ (Permutation_sym (keys_place o k v))) in H.
      destruct H as [<-|H]; auto.
    + apply (Permutation_in _ (keys_place o k v)).
      destruct H as [->|H]; [now left | now right].
Qed.

Lemma NoDup_keys_set (o : JsObject.obj V) k v :
  NoDup (JsObject.keys o) -> NoDup (JsObject.keys (JsObject.set o k v)).
Proof.
  intro H. unfold JsObject.set. destruct (JsObject.get o k) as [x|] eqn:G.
  - now rewrite keys_replace.
  - apply (Permutation_NoDup (keys_place o k v)).
    constructor; trivial. now apply not_In_keys_get.
Qed.

End Assignment.

(** An object filled by a loop
    [l.forEach(e => { o[key(e)] = value(o[key(e)], e) })]. *)
Section Accumulation.

Context {A V : Type} (key : A -> string) (value : option V -> A -> V).

(** What a property holds in the end is computed from the elements of its
    own key alone, in their order. *)
Lemma get_fold_set (l : list A) (o : JsObject.obj V) c :
  JsObject.get
    (fold_left
       (fun o e => JsObject.set o (key e) (value (JsObject.get o (key e)) e)) l o)
    c
  = fold_left (fun cur e => Some (value cur e))
      (filter (fun e => String.eqb (key e) c) l) (JsObject.get o c).
Proof.
  revert o. induction l as [|e l IH]; intro o; [reflexivity|].
  cbn [fold_left filter]. rewrite IH.
  destruct (String.eqb (key e) c) eqn:E.
  - apply String.eqb_eq in E. subst c. now rewrite get_set_same.
  - apply String.eqb_neq in E. now rewrite get_set_other.
Qed.

Lemma In_keys_fold_set (l : list A) (o : JsObject.obj V) c :
  In c (JsObject.keys
          (fold_left
             (fun o e => JsObject.set o (key e) (value (JsObject.get o (key e)) e))
             l o))
  <-> In c (JsObject.keys o) \/ In c (map key l).
Proof.
  revert o. induction l as [|e l IH]; intro o; cbn [fold_left map].
  - simpl. tauto.
  - rewrite IH. rewrite In_keys_set. simpl.
    split; intros [H|H]; auto; destruct H; auto.
Qed.

Lemma NoDup_keys_fold_set (l : list A) (o : JsObject.obj V) :
  NoDup (JsObject.keys o) ->
  NoDup (JsObject.keys
           (fold_left
              (fun o e => JsObject.set o (key e) (value (JsObject.get o (key e)) e))
              l o)).
Proof.
  revert o. induction l as [|e l IH]; intros o H; simpl; trivial.
  apply IH. now apply NoDup_keys_set.
Qed.

End Accumulation.

(** ** The tips *)

Import AIRecommendations.

Lemma getPersonalizedTips_cases (data : FinancialData) :
  getPersonalizedTips data
  = match firing data with
    | [] => [doingGreat]
    | tips => tips
    end.
Proof.
  unfold getPersonalizedTips, firing, thresholdRules, push. simpl.
  destruct (savingsLow data), (bigExpense data), (overspent data); reflexivity.
Qed.

Lemma firing_not_doingGreat (data : FinancialData) :
  ~ In doingGreat (firing data).
Proof.
  unfold firing, thresholdRules. simpl.
  destruct (savingsLow data), (bigExpense data), (overspent data); simpl;
    intuition discriminate.
Qed.

Lemma firing_nil (data : FinancialData) :
  firing data = []
  <-> savingsLow data = false /\ bigExpense data = false /\ overspent data = false.
Proof.
  unfold firing, thresholdRules. simpl.
  destruct (savingsLow data), (bigExpense data), (overspent data); simpl;
    intuition discriminate.
Qed.

(** ** What each property of the breakdown holds *)



(** ** The keys of the breakdown *)

Lemma NoDup_keys_breakdownOf (l : list Transaction.t) :
  NoDup (JsObject.keys (breakdownOf l)).
Proof.
  apply (NoDup_keys_fold_set Transaction.category
           (fun cur e => or_zero cur + Transaction.amount e)).
  constructor.
Qed.

(** The keys are the categories of the expenses. *)
Lemma In_keys_breakdownOf (l : list Transaction.t) c :
  In c (JsObject.keys (breakdownOf l)) <-> In c (map Transaction.category l).
Proof.
  unfold breakdownOf.
  rewrite (In_keys_fold_set Transaction.category
             (fun cur e => or_zero cur + Transaction.amount e)).
  simpl. tauto.
Qed.




(** A label that is an array index is listed before the other labels,
    wherever its first expense stands; a tie between the two is won by the
    label listed last. *)
Lemma array_index_labels_come_first :
  let eb :=
    breakdownOf [ row "t1" expense 500 "Food & Dining"; row "t2" expense 500 "7" ] in
  JsObject.keys eb = ["7"; "Food & Dining"]
  /\ topCategoryOf eb = "Food & Dining".
Proof. split; reflexivity. Qed.

(** ** The top expense category *)

Section PickTop.

Variable eb : JsObject.t.

Lemma get_amountAt k :
  In k (JsObject.keys eb) -> JsObject.get eb k = Some (amountAt eb k).
Proof.
  intro H. apply In_keys_get in H. destruct H as (v & H).
  unfold amountAt. rewrite H. now rewrite or_zero_Some.
Qed.

Lemma pickTop_keys a b :
  In a (JsObject.keys eb) -> In b (JsObject.keys eb) ->
  pickTop eb a b = if gtb (amountAt eb a) (amountAt eb b) then a else b.
Proof.
  intros Ha Hb. unfold pickTop.
  now rewrite (get_amountAt a Ha), (get_amountAt b Hb).
Qed.

(** Folding [pickTop] from a key [a] over keys [ks]: either [a] survives
    and beats every key of [ks] strictly, or the result sits in [ks], is at
    least as large as [a] and everything before it, and strictly larger
    than everything after it. *)
Lemma fold_pickTop (ks : list string) : forall a,
  In a (JsObject.keys eb) ->
  (forall k, In k ks -> In k (JsObject.keys eb)) ->
  let r := fold_left (pickTop eb) ks a in
  (r = a /\ forall k, In k ks -> amountAt eb k < amountAt eb a)
  \/ (exists l1 l2,
        ks = (l1 ++ r :: l2)%list
        /\ amountAt eb a <= amountAt eb r
        /\ (forall k, In k l1 -> amountAt eb k <= amountAt eb r)
        /\ (forall k, In k l2 -> amountAt eb k < amountAt eb r)).
Proof.
  induction ks as [|b ks IH]; intros a Ha Hks; cbn zeta.
  - left. simpl. tauto.
  - assert (Hb : In b (JsObject.keys eb)) by (apply Hks; now left).
    assert (Hks' : forall k, In k ks -> In k (JsObject.keys eb))
      by (intros; apply Hks; now right).
    cbn [fold_left]. rewrite (pickTop_keys a b Ha Hb).
    destruct (gtb (amountAt eb a) (amountAt eb b)) eqn:G.
    + apply gtb_gt in G.
      destruct (IH a Ha Hks') as [(E & L) | (l1 & l2 & E & La & L1 & L2)].
      * left. split; trivial. intros k [<-|Hk]; auto.
      * right. exists (b :: l1), l2. split; [|split; [|split]]; trivial.
        -- simpl. now f_equal.
        -- intros k [<-|Hk]; auto.
           apply Qclt_le_weak. eapply Qclt_le_trans; eassumption.
    + apply gtb_le in G.
      destruct (IH b Hb Hks') as [(E & L) | (l1 & l2 & E & Lb & L1 & L2)].
      * right. exists [], ks. rewrite E. split; [|split; [|split]]; trivial.
        intros k [].
      * right. exists (b :: l1), l2. split; [|split; [|split]]; trivial.
        -- simpl. now f_equal.
        -- eapply Qcle_trans; eassumption.
        -- intros k [<-|Hk]; auto.
Qed.

(** With at least one key, the top category is a key; no key before it is
    larger and every key after it is strictly smaller. *)
Lemma topCategoryOf_split :
  JsObject.keys eb <> [] ->
  exists l1 l2,
    JsObject.keys eb = (l1 ++ topCategoryOf eb :: l2)%list
    /\ (forall k, In k l1 -> amountAt eb k <= amountAt eb (topCategoryOf eb))
    /\ (forall k, In k l2 -> amountAt eb k < amountAt eb (topCategoryOf eb)).
Proof.
  intro N. unfold topCategoryOf.
  destruct (JsObject.get eb "Other") as [x|] eqn:O.
  - assert (Ha : In "Other" (JsObject.keys eb)) by (apply In_keys_get; eauto).
    destruct (fold_pickTop (JsObject.keys eb) "Other" Ha (fun k H => H))
      as [(E & L) | (l1 & l2 & E & _ & L1 & L2)].
    + exfalso. exact (Qclt_not_eq _ _ (L _ Ha) eq_refl).
    + exists l1, l2. split; [|split]; assumption.
  - destruct (JsObject.keys eb) as [|b ks] eqn:K; [congruence|].
    assert (P : pickTop eb "Other" b = b) by (unfold pickTop; now rewrite O).
    cbn [fold_left]. rewrite P.
    assert (Hb : In b (JsObject.keys eb)) by (rewrite K; now left).
    assert (Hks : forall k, In k ks -> In k (JsObject.keys eb))
      by (intros; rewrite K; now right).
    destruct (fold_pickTop ks b Hb Hks)
      as [(E & L) | (l1 & l2 & E & Lb & L1 & L2)].
    + exists [], ks. rewrite E. split; [|split]; trivial. intros k [].
    + exists (b :: l1), l2. split; [|split]; trivial.
      * simpl. now f_equal.
      * intros k [<-|Hk]; auto.
Qed.

Lemma topCategoryOf_In :
  JsObject.keys eb <> [] -> In (topCategoryOf eb) (JsObject.keys eb).
Proof.
  intro N. destruct (topCategoryOf_split N) as (l1 & l2 & E & _).
  rewrite E. apply in_elt.
Qed.

Lemma topCategoryOf_largest k :
  In k (JsObject.keys eb) -> amountAt eb k <= amountAt eb (topCategoryOf eb).
Proof.
  intro Hk.
  assert (N : JsObject.keys eb <> []) by (intro E; rewrite E in Hk; exact Hk).
  destruct (topCategoryOf_split N) as (l1 & l2 & E & L1 & L2).
  rewrite E in Hk. apply in_app_or in Hk. destruct Hk as [Hk|[<-|Hk]].
  - auto.
  - apply Qcle_refl.
  - apply Qclt_le_weak. auto.
Qed.

End PickTop.

(** ** Totals *)

Lemma Math_ceil_isCeilingOf (x : number) : isCeilingOf (Math_ceil x) x.
Proof.
  unfold isCeilingOf, Math_ceil, Qclt, Qcle. rewrite !this_ofZ. split.
  - apply Qceiling_lt.
  - apply Qle_ceiling.
Qed.


(** ** Reordering the rows *)

Lemma filter_Permutation {A : Type} (f : A -> bool) (l l' : list A) :
  Permutation l l' -> Permutation (filter f l) (filter f l').
Proof.
  induction 1 as [| x l l' _ IH | x y l | l l' l'' _ IH1 _ IH2]; simpl.
  - constructor.
  - destruct (f x); auto.
  - destruct (f x), (f y); auto. constructor.
  - eapply perm_trans; eassumption.
Qed.

(** ** Grouping by key *)

Lemma concat_insert {A : Type} (k : string) (x : A) (f : string -> list A)
    (ks : list string) :
  NoDup ks -> In k ks ->
  Permutation
    (List.concat (map (fun c => if String.eqb k c then x :: f c else f c) ks))
    (x :: List.concat (map f ks)).
Proof.
  induction 1 as [|c ks Hc D IH]; intro I; [destruct I|].
  cbn [map List.concat]. destruct (String.eqb k c) eqn:E.
  - apply String.eqb_eq in E. subst c.
    rewrite (map_ext_in _ f); [apply Permutation_refl|].
    intros c' Hc'.
    assert (E : String.eqb k c' = false)
      by (apply String.eqb_neq; intros ->; contradiction).
    now rewrite E.
  - apply String.eqb_neq in E. destruct I as [I|I]; [congruence|].
    eapply perm_trans; [apply Permutation_app_head, (IH I)|].
    apply Permutation_sym, Permutation_middle.
Qed.

(** Rows grouped under distinct keys that cover them: every row is in
    exactly one group. *)
Lemma grouped_by_key {A : Type} (key : A -> string) (ks : list string)
    (l : list A) :
  NoDup ks -> (forall x, In x l -> In (key x) ks) ->
  Permutation
    (List.concat (map (fun c => filter (fun x => String.eqb (key x) c) l) ks)) l.
Proof.
  intros D. induction l as [|x l IH]; intro C.
  - cbn [filter]. clear. induction ks as [|c ks IHks]; simpl; trivial.
  - cbn [filter].
    eapply perm_trans;
      [apply (concat_insert (key x) x
                (fun c => filter (fun y => String.eqb (key y) c) l) ks D)|].
    + apply C. now left.
    + apply perm_skip. apply IH. intros y Hy. apply C. now right.
Qed.

(** ** The binary64 embedding *)

Lemma fold_left_of_map {A B C : Type} (f : C -> B -> C) (g : A -> B)
    (l : list A) (a : C) :
  fold_left f (map g l) a = fold_left (fun s x => f s (g x)) l a.
Proof. revert a. induction l as [|x l IH]; intro a; simpl; auto. Qed.

Lemma loadFinancialData64_rows (txs : list Binary64.Transaction.t) st :
  txs <> [] ->
  Binary64.AIRecommendations.loadFinancialData txs st
  = Some (Binary64.AIRecommendations.financialDataOf txs).
Proof.
  destruct txs as [|t txs]; [congruence|reflexivity].
Qed.

Lemma get_breakdownOf64 (l : list Binary64.Transaction.t) c :
  JsObject.get (Binary64.AIRecommendations.breakdownOf l) c
  = Binary64.sumOfCategory
      (map Binary64.Transaction.amount (Binary64.inCategory c l)).
Proof.
  unfold Binary64.sumOfCategory, Binary64.inCategory.
  rewrite fold_left_of_map.
  exact (get_fold_set Binary64.Transaction.category
           (fun cur e => PrimFloat.add (Binary64.or_zero cur)
                           (Binary64.Transaction.amount e))
           l JsObject.empty c).
Qed.

Lemma NoDup_keys_breakdownOf64 (l : list Binary64.Transaction.t) :
  NoDup (JsObject.keys (Binary64.AIRecommendations.breakdownOf l)).
Proof.
  apply (NoDup_keys_fold_set Binary64.Transaction.category
           (fun cur e => PrimFloat.add (Binary64.or_zero cur)
                           (Binary64.Transaction.amount e))).
  constructor.
Qed.

Lemma In_keys_breakdownOf64 (l : list Binary64.Transaction.t) c :
  In c (JsObject.keys (Binary64.AIRecommendations.breakdownOf l))
  <-> In c (map Binary64.Transaction.category l).
Proof.
  unfold Binary64.AIRecommendations.breakdownOf.
  rewrite (In_keys_fold_set Binary64.Transaction.category
             (fun cur e => PrimFloat.add (Binary64.or_zero cur)
                             (Binary64.Transaction.amount e))).
  simpl. tauto.
Qed.

(** [Math.ceil] on some numbers: a quotient just above 3, whole numbers,
    negative numbers, the smallest positive number. *)
Lemma Math_ceil_examples :
  Binary64.Math_ceil (1500.15 / (1000.05 - 500))%float = 4%float
  /\ Binary64.Math_ceil 4%float = 4%float
  /\ Binary64.Math_ceil 0.1%float = 1%float
  /\ Binary64.Math_ceil (-3.7)%float = (-3)%float
  /\ Binary64.Math_ceil (-0.5)%float = (-0)%float
  /\ Binary64.Math_ceil 5e-324%float = 1%float
  /\ Binary64.Math_ceil 9007199254740991%float = 9007199254740991%float
  /\ Binary64.Math_ceil infinity = infinity.
Proof. repeat split; vm_compute; reflexivity. Qed.

(** Two closed binary64 numbers that differ. *)
Ltac float_neq :=
  let H := fresh in
  intro H;
  match type of H with
  | ?a = _ => apply (f_equal (fun x => PrimFloat.eqb a x)) in H
  end;
  vm_compute in H; discriminate H.

(** * The claims *)

(** ** Savings rate *)

(** C1, as stated, fails: on the specification's scenario (income 5000,
    expenses 1200 and 800) the stored savings rate is neither
    balance / total income nor 0.6. *)
Lemma savingsRate_is_not_the_plain_ratio :
  exists d,
    loadFinancialData salaryFoodShopping None = Some d
    /\ 0 < totalIncome d
    /\ savingsRate d <> balance d / totalIncome d
    /\ savingsRate d <> Q2Qc (6 # 10).
Proof.
  exists (financialDataOf salaryFoodShopping).
  split; [reflexivity|]. split; [reflexivity|].
  split; intro H; apply (f_equal this) in H; vm_compute in H; discriminate.
Qed.

(** C1, amended: for every non-empty transaction list the snapshot's savings
    rate is a percentage, 100 * balance / total income, when total income is
    positive, and 0 when total income is 0 (or below); on the scenario
    [income 5000 Salary; expense 1200 Food & Dining; expense 800 Shopping]
    it is 60. *)
Theorem savingsRate_is_a_percentage (txs : list Transaction.t)
    (st : option FinancialData) :
  txs <> [] ->
  exists d,
    loadFinancialData txs st = Some d
    /\ (0 < totalIncome d -> savingsRate d = balance d / totalIncome d * ofZ 100)
    /\ (totalIncome d <= 0 -> savingsRate d = 0)
    /\ (txs = salaryFoodShopping -> savingsRate d = ofZ 60).
Proof.
  intro N. exists (financialDataOf txs).
  split; [now apply loadFinancialData_rows|].
  unfold financialDataOf; cbn [totalIncome savingsRate balance].
  split; [|split].
  - intro H. apply gtb_gt in H. now rewrite H.
  - intro H. apply gtb_le in H. now rewrite H.
  - intros ->. apply Qc_is_canon. reflexivity.
Qed.

Lemma savingsRate_is_a_percentage_witness :
  salaryFoodShopping <> []
  /\ exists d,
       loadFinancialData salaryFoodShopping None = Some d
       /\ (0 < totalIncome d -> savingsRate d = balance d / totalIncome d * ofZ 100)
       /\ (totalIncome d <= 0 -> savingsRate d = 0)
       /\ (salaryFoodShopping = salaryFoodShopping -> savingsRate d = ofZ 60).
Proof.
  split; [discriminate | apply (savingsRate_is_a_percentage salaryFoodShopping None); discriminate].
Defined.

(** ** The empty list *)

(** C5, as stated, fails: from the initial state, loading an empty list
    leaves no snapshot at all, so there is none whose fields are 0. *)
Lemma empty_list_gives_no_snapshot :
  ~ exists d,
      loadFinancialData [] None = Some d
      /\ totalIncome d = 0 /\ totalExpenses d = 0 /\ balance d = 0
      /\ savingsRate d = 0 /\ expenseBreakdown d = JsObject.empty.
Proof. intros (d & H & _). discriminate. Qed.

(** C5, amended: on the empty transaction list [loadFinancialData] computes
    no snapshot and leaves the stored one as it was (none after the first
    load); the dashboard's totals for the empty list are total income 0,
    total expenses 0 and balance 0. *)
Theorem empty_list_keeps_state_and_zero_totals
    (st : option FinancialData) (debts : list Debt.t) :
  loadFinancialData [] st = st
  /\ loadFinancialData [] None = None
  /\ BudgetDashboard.totalIncome (BudgetDashboard.totals [] debts) = 0
  /\ BudgetDashboard.totalExpenses (BudgetDashboard.totals [] debts) = 0
  /\ BudgetDashboard.balance (BudgetDashboard.totals [] debts) = 0.
Proof.
  repeat split.
Qed.

(** ** Non-negative totals and the balance *)

(** C7, as stated, fails: a refund entered as an expense of -30 gives total
    expenses of -30, on the dashboard and in the stored snapshot. *)
Lemma negative_amount_gives_negative_total :
  BudgetDashboard.totalExpenses (BudgetDashboard.totals refundAsExpense [])
  = ofZ (-30)
  /\ BudgetDashboard.totalExpenses (BudgetDashboard.totals refundAsExpense []) < 0
  /\ exists d,
       loadFinancialData refundAsExpense None = Some d
       /\ totalExpenses d = ofZ (-30)
       /\ totalExpenses d < 0.
Proof.
  split; [apply Qc_is_canon; reflexivity|]. split; [reflexivity|].
  exists (financialDataOf refundAsExpense).
  split; [reflexivity|]. split; [apply Qc_is_canon; reflexivity | reflexivity].
Qed.

(** C7, amended: for every transaction list the balance is total income
    minus total expenses, on the dashboard and in the stored snapshot; total
    income and total expenses are non-negative when no amount is negative
    (the code accepts negative amounts as they are). *)
Theorem totals_nonnegative_without_negative_amounts (txs : list Transaction.t)
    (debts : list Debt.t) (st : option FinancialData) :
  (let t := BudgetDashboard.totals txs debts in
   BudgetDashboard.balance t
   = BudgetDashboard.totalIncome t - BudgetDashboard.totalExpenses t
   /\ (nonNegativeAmounts txs ->
       0 <= BudgetDashboard.totalIncome t /\ 0 <= BudgetDashboard.totalExpenses t))
  /\ (txs <> [] ->
      exists d,
        loadFinancialData txs st = Some d
        /\ balance d = totalIncome d - totalExpenses d
        /\ (nonNegativeAmounts txs -> 0 <= totalIncome d /\ 0 <= totalExpenses d)).
Proof.
  assert (P : nonNegativeAmounts txs ->
              0 <= sumAmounts (ofType income txs)
              /\ 0 <= sumAmounts (ofType expense txs)).
  { intro H. rewrite !sumAmounts_sumOf. split.
    - exact (sumOf_nonneg _ (nonNegativeAmounts_ofType income txs H)).
    - exact (sumOf_nonneg _ (nonNegativeAmounts_ofType expense txs H)). }
  split.
  - cbn zeta. split; [reflexivity | exact P].
  - intro N. exists (financialDataOf txs).
    split; [now apply loadFinancialData_rows|].
    split; [reflexivity | exact P].
Qed.

Lemma totals_nonnegative_without_negative_amounts_witness :
  nonNegativeAmounts salaryFoodShopping
  /\ salaryFoodShopping <> []
  /\ exists d,
       loadFinancialData salaryFoodShopping None = Some d
       /\ balance d = totalIncome d - totalExpenses d
       /\ 0 <= totalIncome d /\ 0 <= totalExpenses d.
Proof.
  assert (H : nonNegativeAmounts salaryFoodShopping)
    by (repeat constructor; discriminate).
  assert (N : salaryFoodShopping <> []) by discriminate.
  split; [exact H|]. split; [exact N|].
  destruct (proj2 (totals_nonnegative_without_negative_amounts
                     salaryFoodShopping [] None) N)
    as (d & Hd & Hb & P).
  exists d. split; [exact Hd|]. split; [exact Hb|]. exact (P H).
Defined.

(** ** Monthly trend *)

(** C10: for every non-empty transaction list the stored monthly trend
    depends on the sign of the balance alone: it is [increasing] when the
    balance is positive and [decreasing] otherwise, and never [stable]. *)
Theorem monthlyTrend_follows_balance_sign (txs : list Transaction.t)
    (st : option FinancialData) :
  txs <> [] ->
  exists d,
    loadFinancialData txs st = Some d
    /\ (0 < balance d -> monthlyTrend d = increasing)
    /\ (balance d <= 0 -> monthlyTrend d = decreasing)
    /\ monthlyTrend d <> stable.
Proof.
  intro N. exists (financialDataOf txs).
  split; [now apply loadFinancialData_rows|].
  unfold financialDataOf; cbn [monthlyTrend balance].
  set (b := sumAmounts _ - sumAmounts _).
  destruct (gtb b 0) eqn:G.
  - apply gtb_gt in G. split; [trivial|]. split; [|discriminate].
    intro L. exfalso. exact (Qcle_not_lt _ _ L G).
  - apply gtb_le in G. split; [|split; [trivial|discriminate]].
    intro L. exfalso. exact (Qcle_not_lt _ _ G L).
Qed.

Lemma monthlyTrend_follows_balance_sign_witness :
  salaryFoodShopping <> []
  /\ exists d,
       loadFinancialData salaryFoodShopping None = Some d
       /\ (0 < balance d -> monthlyTrend d = increasing)
       /\ (balance d <= 0 -> monthlyTrend d = decreasing)
       /\ monthlyTrend d <> stable.
Proof.
  split; [discriminate
         | apply (monthlyTrend_follows_balance_sign salaryFoodShopping None);
           discriminate].
Defined.

(** ** Debt figures *)

(** C4, as stated, fails.  With a salary of 3000 and no debt, what is
    available exceeds the monthly minimum and the quotient rounds up to 0,
    but the page shows no estimate: the card is rendered only with a
    positive total debt.  And the estimate is taken of the binary64
    quotient: for an income of 1000.05, a minimum payment of 500 and a debt
    of 1500.15 the quotient of the decimal figures is 3, the binary64
    quotient is just above it, and the card shows 4 months. *)
Lemma no_debt_shows_no_estimate :
  (let t := Binary64.BudgetDashboard.totals (Binary64.salary 3000) [] in
   Binary64.gtb (Binary64.BudgetDashboard.availableForDebt t)
     (Binary64.BudgetDashboard.monthlyDebtPayment t) = true
   /\ Binary64.BudgetDashboard.debtFreeTimeline t
      = Binary64.BudgetDashboard.Months 0
   /\ Binary64.BudgetDashboard.debtFreeTimelineShown t = None)
  /\ (let t :=
        Binary64.BudgetDashboard.totals (Binary64.salary 1000.05)
          (Binary64.loan 1500.15 500) in
      Binary64.BudgetDashboard.debtFreeTimelineShown t
      = Some (Binary64.BudgetDashboard.Months 4)
      /\ Math_ceil (Q2Qc (150015 # 100) / (Q2Qc (100005 # 100) - ofZ 500)) = 3%Z).
Proof.
  split; cbn zeta; repeat split; vm_compute; reflexivity.
Qed.

(** C4, amended: for every transaction and debt list, total debt is the sum
    of the principals and the monthly minimum the sum of the minimum
    payments, each added in list order from 0 in binary64; what is
    available for debt is the balance.  An estimate is shown only when the
    total debt is positive: it is then [Math.ceil] of the binary64 quotient
    total debt / (available - monthly minimum) when what is available
    exceeds the monthly minimum, and the text 'Focus on income first'
    otherwise.  Without debts nothing is shown. *)
Theorem payoff_months_shown_with_debt (txs : list Binary64.Transaction.t)
    (debts : list Binary64.Debt.t) :
  let t := Binary64.BudgetDashboard.totals txs debts in
  Binary64.BudgetDashboard.totalDebt t
  = Binary64.sumInOrder (map Binary64.Debt.amount debts)
  /\ Binary64.BudgetDashboard.monthlyDebtPayment t
     = Binary64.sumInOrder (map Binary64.Debt.minimumPayment debts)
  /\ Binary64.BudgetDashboard.availableForDebt t
     = Binary64.BudgetDashboard.balance t
  /\ (Binary64.gtb (Binary64.BudgetDashboard.totalDebt t) 0 = false ->
      Binary64.BudgetDashboard.debtFreeTimelineShown t = None)
  /\ (Binary64.gtb (Binary64.BudgetDashboard.totalDebt t) 0 = true ->
      Binary64.gtb (Binary64.BudgetDashboard.availableForDebt t)
        (Binary64.BudgetDashboard.monthlyDebtPayment t) = true ->
      Binary64.BudgetDashboard.debtFreeTimelineShown t
      = Some (Binary64.BudgetDashboard.Months
                (Binary64.Math_ceil
                   (Binary64.BudgetDashboard.totalDebt t
                    / (Binary64.BudgetDashboard.availableForDebt t
                       - Binary64.BudgetDashboard.monthlyDebtPayment t))%float)))
  /\ (Binary64.gtb (Binary64.BudgetDashboard.totalDebt t) 0 = true ->
      Binary64.gtb (Binary64.BudgetDashboard.availableForDebt t)
        (Binary64.BudgetDashboard.monthlyDebtPayment t) = false ->
      Binary64.BudgetDashboard.debtFreeTimelineShown t
      = Some Binary64.BudgetDashboard.FocusOnIncomeFirst)
  /\ (debts = [] -> Binary64.BudgetDashboard.debtFreeTimelineShown t = None).
Proof.
  intro t.
  split; [unfold Binary64.sumInOrder; now rewrite fold_left_of_map|].
  split; [unfold Binary64.sumInOrder; now rewrite fold_left_of_map|].
  split; [reflexivity|].
  unfold Binary64.BudgetDashboard.debtFreeTimelineShown,
    Binary64.BudgetDashboard.debtFreeTimeline.
  split; [now intros ->|].
  split; [now intros -> ->|].
  split; [now intros -> ->|].
  intro E. subst t. rewrite E. reflexivity.
Qed.

Lemma payoff_months_shown_with_debt_witness :
  let t :=
    Binary64.BudgetDashboard.totals (Binary64.salary 3000)
      (Binary64.loan 10000 500) in
  Binary64.gtb (Binary64.BudgetDashboard.totalDebt t) 0 = true
  /\ Binary64.gtb (Binary64.BudgetDashboard.availableForDebt t)
       (Binary64.BudgetDashboard.monthlyDebtPayment t) = true
  /\ Binary64.BudgetDashboard.debtFreeTimelineShown t
     = Some (Binary64.BudgetDashboard.Months 4).
Proof.
  intro t.
  assert (D : Binary64.gtb (Binary64.BudgetDashboard.totalDebt t) 0 = true)
    by reflexivity.
  assert (A : Binary64.gtb (Binary64.BudgetDashboard.availableForDebt t)
                (Binary64.BudgetDashboard.monthlyDebtPayment t) = true)
    by reflexivity.
  split; [exact D|]. split; [exact A|].
  exact (proj1 (proj2 (proj2 (proj2 (proj2
           (payoff_months_shown_with_debt (Binary64.salary 3000)
              (Binary64.loan 10000 500)))))) D A).
Defined.

(** ** The breakdown adds up *)

(** C6, as stated, fails: for expenses of 0.3 and 0.1 in one category and
    0.2 in another the stored total is 0.6, the breakdown holds 0.4 and
    0.2, and these add up to 0.6000000000000001. *)
Lemma breakdown_sum_is_not_totalExpenses :
  exists d,
    Binary64.AIRecommendations.loadFinancialData Binary64.threeExpenses None
    = Some d
    /\ Binary64.AIRecommendations.totalExpenses d = 0.6%float
    /\ JsObject.entries (Binary64.AIRecommendations.expenseBreakdown d)
       = [("Food & Dining", 0.4%float); ("Shopping", 0.2%float)]
    /\ Binary64.sumInOrder
         (JsObject.values (Binary64.AIRecommendations.expenseBreakdown d))
       = 0.6000000000000001%float
    /\ Binary64.sumInOrder
         (JsObject.values (Binary64.AIRecommendations.expenseBreakdown d))
       <> Binary64.AIRecommendations.totalExpenses d.
Proof.
  exists (Binary64.AIRecommendations.financialDataOf Binary64.threeExpenses).
  split; [reflexivity|]. split; [vm_compute; reflexivity|].
  split; [vm_compute; reflexivity|]. split; [vm_compute; reflexivity|].
  float_neq.
Qed.

(** C6, amended: for every non-empty transaction list, the stored total
    expenses is the sum of the expense amounts, added in row order from 0;
    the breakdown has one entry for each category of an expense and no
    other; the entry of a category is the sum of the amounts of that
    category's expenses, added in row order; and the expenses grouped by
    the keys of the breakdown are the expenses, each once: every expense is
    counted in exactly one category and nothing else is counted.  (The
    sums are binary64 sums, so the entries need not add up to the total.) *)
Theorem breakdown_counts_each_expense_once
    (txs : list Binary64.Transaction.t)
    (st : option Binary64.AIRecommendations.FinancialData) :
  txs <> [] ->
  exists d,
    Binary64.AIRecommendations.loadFinancialData txs st = Some d
    /\ Binary64.AIRecommendations.totalExpenses d
       = Binary64.sumInOrder
           (map Binary64.Transaction.amount (Binary64.ofType expense txs))
    /\ (forall c,
          JsObject.get (Binary64.AIRecommendations.expenseBreakdown d) c
          = Binary64.sumOfCategory
              (map Binary64.Transaction.amount
                 (Binary64.inCategory c (Binary64.ofType expense txs))))
    /\ NoDup (JsObject.keys (Binary64.AIRecommendations.expenseBreakdown d))
    /\ (forall c,
          In c (JsObject.keys (Binary64.AIRecommendations.expenseBreakdown d))
          <-> In c (map Binary64.Transaction.category
                      (Binary64.ofType expense txs)))
    /\ Permutation
         (List.concat
            (map (fun c => Binary64.inCategory c (Binary64.ofType expense txs))
               (JsObject.keys (Binary64.AIRecommendations.expenseBreakdown d))))
         (Binary64.ofType expense txs).
Proof.
  intro N. exists (Binary64.AIRecommendations.financialDataOf txs).
  split; [now apply loadFinancialData64_rows|].
  unfold Binary64.AIRecommendations.financialDataOf;
    cbn [Binary64.AIRecommendations.totalExpenses
         Binary64.AIRecommendations.expenseBreakdown].
  fold (Binary64.ofType expense txs).
  split.
  { unfold Binary64.sumInOrder, Binary64.AIRecommendations.sumAmounts.
    now rewrite fold_left_of_map. }
  split; [intro c; apply get_breakdownOf64|].
  split; [apply NoDup_keys_breakdownOf64|].
  split; [intro c; apply In_keys_breakdownOf64|].
  apply (grouped_by_key Binary64.Transaction.category).
  - apply NoDup_keys_breakdownOf64.
  - intros x Hx. apply In_keys_breakdownOf64. now apply in_map.
Qed.

Lemma breakdown_counts_each_expense_once_witness :
  Binary64.threeExpenses <> []
  /\ exists d,
       Binary64.AIRecommendations.loadFinancialData Binary64.threeExpenses None
       = Some d
       /\ JsObject.get (Binary64.AIRecommendations.expenseBreakdown d)
            "Food & Dining"
          = Binary64.sumOfCategory [0.3; 0.1]%float
       /\ Permutation
            (List.concat
               (map (fun c =>
                       Binary64.inCategory c
                         (Binary64.ofType expense Binary64.threeExpenses))
                  (JsObject.keys
                     (Binary64.AIRecommendations.expenseBreakdown d))))
            (Binary64.ofType expense Binary64.threeExpenses).
Proof.
  assert (N : Binary64.threeExpenses <> []) by discriminate.
  split; [exact N|].
  destruct (breakdown_counts_each_expense_once Binary64.threeExpenses None N)
    as (d & Hd & _ & G & _ & _ & P).
  exists d. split; [exact Hd|]. split; [exact (G "Food & Dining") | exact P].
Defined.

(** ** Tips *)

(** C3, as stated, fails: with one expense and no income the balance is
    negative, the overspending tip is returned, and it comes last, behind
    the savings tip and the biggest-expense tip. *)
Lemma overspending_tip_is_not_first :
  exists d,
    loadFinancialData groceriesOnly None = Some d
    /\ balance d < 0
    /\ getPersonalizedTips d = [boostSavings; optimizeBiggest d; addressOverspending]
    /\ hd_error (getPersonalizedTips d) <> Some addressOverspending.
Proof.
  exists (financialDataOf groceriesOnly).
  split; [reflexivity|]. split; [reflexivity|].
  assert (E : getPersonalizedTips (financialDataOf groceriesOnly)
              = [boostSavings; optimizeBiggest (financialDataOf groceriesOnly);
                 addressOverspending])
    by (rewrite getPersonalizedTips_cases; reflexivity).
  split; [exact E|]. rewrite E. discriminate.
Qed.

(** C3, amended: for every snapshot [getPersonalizedTips] returns the tips of
    exactly the threshold rules whose predicates hold, in rule-declaration
    order (savings, biggest expense, overspending) with no reordering, and
    the fallback tip alone when none holds; so the overspending tip, when
    the balance is negative, is the last one returned. *)
Theorem tips_in_declaration_order (d : FinancialData) :
  getPersonalizedTips d
  = (match firing d with [] => [doingGreat] | tips => tips end)
  /\ (balance d < 0 ->
      exists earlier,
        getPersonalizedTips d = (earlier ++ [addressOverspending])%list
        /\ earlier
           = ((if savingsLow d then [boostSavings] else [])
              ++ (if bigExpense d then [optimizeBiggest d] else []))%list).
Proof.
  split; [apply getPersonalizedTips_cases|].
  intro H. apply ltb_lt in H.
  eexists. split; [|reflexivity].
  rewrite getPersonalizedTips_cases. unfold firing, thresholdRules.
  cbn [filter fst snd map]. fold (overspent d) in H.
  rewrite H. destruct (savingsLow d), (bigExpense d); reflexivity.
Qed.

Lemma tips_in_declaration_order_witness :
  exists d,
    loadFinancialData groceriesOnly None = Some d
    /\ balance d < 0
    /\ exists earlier,
         getPersonalizedTips d = (earlier ++ [addressOverspending])%list
         /\ earlier
            = ((if savingsLow d then [boostSavings] else [])
               ++ (if bigExpense d then [optimizeBiggest d] else []))%list.
Proof.
  exists (financialDataOf groceriesOnly).
  split; [reflexivity|].
  assert (H : balance (financialDataOf groceriesOnly) < 0) by reflexivity.
  split; [exact H|].
  exact (proj2 (tips_in_declaration_order (financialDataOf groceriesOnly)) H).
Defined.

(** C9: for every snapshot [getPersonalizedTips] returns at least one tip,
    and the fallback tip is among them exactly when no threshold rule
    matches, in which case it is the only one. *)
Theorem tips_never_empty (d : FinancialData) :
  getPersonalizedTips d <> []
  /\ (In doingGreat (getPersonalizedTips d)
      <-> savingsLow d = false /\ bigExpense d = false /\ overspent d = false)
  /\ (In doingGreat (getPersonalizedTips d) -> getPersonalizedTips d = [doingGreat]).
Proof.
  rewrite getPersonalizedTips_cases.
  pose proof (firing_not_doingGreat d) as F.
  pose proof (firing_nil d) as Z.
  destruct (firing d) as [|x l] eqn:E.
  - split; [discriminate|]. split; [|trivial].
    split; [intros _; now apply Z | intros _; now left].
  - split; [discriminate|]. split; [split|]; intro H.
    + contradiction.
    + apply Z in H. discriminate.
    + contradiction.
Qed.

Lemma tips_never_empty_witness :
  exists d,
    loadFinancialData salaryFoodShopping None = Some d
    /\ getPersonalizedTips d <> []
    /\ ~ In doingGreat (getPersonalizedTips d).
Proof.
  exists (financialDataOf salaryFoodShopping).
  split; [reflexivity|].
  destruct (tips_never_empty (financialDataOf salaryFoodShopping))
    as (N & (I & _) & _).
  split; [exact N|].
  intro H. apply I in H. destruct H as (_ & B & _). discriminate B.
Defined.

(** ** The dominant category *)

(** C2, as stated, fails twice: of two categories tied at the largest amount
    the stored top category is the later one, not the first encountered; and
    with no expense at all the stored top category is the label 'Other',
    not an undefined value. *)
Lemma top_category_is_not_the_first_largest :
  (exists d,
     loadFinancialData foodThenShopping None = Some d
     /\ firstLargest (expenseBreakdown d) = Some "Food & Dining"
     /\ topExpenseCategory d = "Shopping")
  /\ (exists d,
        loadFinancialData salaryOnly None = Some d
        /\ expenseBreakdown d = JsObject.empty
        /\ firstLargest (expenseBreakdown d) = None
        /\ topExpenseCategory d = "Other").
Proof.
  split.
  - exists (financialDataOf foodThenShopping). repeat split.
  - exists (financialDataOf salaryOnly). repeat split.
Qed.

(** C2, amended: for every non-empty transaction list, when the breakdown
    is non-empty the stored top category is one of its keys holding the
    largest summed amount, and among keys tied at that amount it is the one
    [Object.keys] lists last (no key before it is larger, every key after
    it is strictly smaller); when the breakdown is empty the top category is
    the label 'Other' and the biggest expense is 0. *)
Theorem top_category_is_the_last_largest (txs : list Transaction.t)
    (st : option FinancialData) :
  txs <> [] ->
  exists d,
    loadFinancialData txs st = Some d
    /\ NoDup (JsObject.keys (expenseBreakdown d))
    /\ (expenseBreakdown d = JsObject.empty ->
        topExpenseCategory d = "Other" /\ biggestExpense d = 0)
    /\ (expenseBreakdown d <> JsObject.empty ->
        exists before after,
          JsObject.keys (expenseBreakdown d)
          = (before ++ topExpenseCategory d :: after)%list
          /\ JsObject.get (expenseBreakdown d) (topExpenseCategory d)
             = Some (biggestExpense d)
          /\ (forall k, In k (JsObject.keys (expenseBreakdown d)) ->
                        amountAt (expenseBreakdown d) k <= biggestExpense d)
          /\ (forall k, In k after ->
                        amountAt (expenseBreakdown d) k < biggestExpense d)).
Proof.
  intro N. exists (financialDataOf txs).
  split; [now apply loadFinancialData_rows|].
  unfold financialDataOf;
    cbn [expenseBreakdown topExpenseCategory biggestExpense].
  fold (ofType expense txs). set (eb := breakdownOf (ofType expense txs)).
  split; [apply NoDup_keys_breakdownOf|]. split.
  - intros ->. split; reflexivity.
  - intro NE.
    assert (K : JsObject.keys eb <> []).
    { intro K. apply NE. apply map_eq_nil in K. exact K. }
    destruct (topCategoryOf_split eb K) as (l1 & l2 & E & L1 & L2).
    exists l1, l2. split; [exact E|]. split; [|split].
    + apply get_amountAt. now apply topCategoryOf_In.
    + intros k Hk. now apply topCategoryOf_largest.
    + exact L2.
Qed.

Lemma top_category_is_the_last_largest_witness :
  foodThenShopping <> []
  /\ exists d,
       loadFinancialData foodThenShopping None = Some d
       /\ exists before after,
            JsObject.keys (expenseBreakdown d)
            = (before ++ topExpenseCategory d :: after)%list
            /\ JsObject.get (expenseBreakdown d) (topExpenseCategory d)
               = Some (biggestExpense d)
            /\ (forall k, In k (JsObject.keys (expenseBreakdown d)) ->
                          amountAt (expenseBreakdown d) k <= biggestExpense d)
            /\ (forall k, In k after ->
                          amountAt (expenseBreakdown d) k < biggestExpense d).
Proof.
  assert (N : foodThenShopping <> []) by discriminate.
  split; [exact N|].
  destruct (top_category_is_the_last_largest foodThenShopping None N)
    as (d & Hd & _ & _ & S).
  exists d. split; [exact Hd|].
  apply S. injection Hd as <-. discriminate.
Defined.

(** ** Reordered input *)

(** C8, as stated, fails: the sums are rounded in row order.  Reversing
    three incomes of 0.1, 0.2 and 0.3 beside an expense of 0.6 changes the
    total income, the balance, the savings rate and the trend; reversing
    four expenses changes the amount of a category, the biggest expense and
    the top category, though one category alone holds the largest amount in
    the first order. *)
Lemma snapshot_depends_on_row_order :
  Permutation Binary64.threeIncomes (rev Binary64.threeIncomes)
  /\ (exists d d',
        Binary64.AIRecommendations.loadFinancialData Binary64.threeIncomes None
        = Some d
        /\ Binary64.AIRecommendations.loadFinancialData
             (rev Binary64.threeIncomes) None
           = Some d'
        /\ Binary64.AIRecommendations.totalIncome d = 0.6000000000000001%float
        /\ Binary64.AIRecommendations.totalIncome d' = 0.6%float
        /\ Binary64.AIRecommendations.totalIncome d
           <> Binary64.AIRecommendations.totalIncome d'
        /\ Binary64.AIRecommendations.balance d
           <> Binary64.AIRecommendations.balance d'
        /\ Binary64.AIRecommendations.savingsRate d
           <> Binary64.AIRecommendations.savingsRate d'
        /\ Binary64.AIRecommendations.monthlyTrend d
           = Binary64.AIRecommendations.increasing
        /\ Binary64.AIRecommendations.monthlyTrend d'
           = Binary64.AIRecommendations.decreasing)
  /\ Permutation Binary64.fourExpenses (rev Binary64.fourExpenses)
  /\ (exists d d',
        Binary64.AIRecommendations.loadFinancialData Binary64.fourExpenses None
        = Some d
        /\ Binary64.AIRecommendations.loadFinancialData
             (rev Binary64.fourExpenses) None
           = Some d'
        /\ JsObject.entries (Binary64.AIRecommendations.expenseBreakdown d)
           = [("Shopping", 0.6%float); ("Food & Dining", 0.6000000000000001%float)]
        /\ JsObject.entries (Binary64.AIRecommendations.expenseBreakdown d')
           = [("Food & Dining", 0.6%float); ("Shopping", 0.6%float)]
        /\ Binary64.AIRecommendations.biggestExpense d
           <> Binary64.AIRecommendations.biggestExpense d'
        /\ Binary64.AIRecommendations.topExpenseCategory d = "Food & Dining"
        /\ Binary64.AIRecommendations.topExpenseCategory d' = "Shopping").
Proof.
  split; [apply Permutation_rev|]. split.
  - exists (Binary64.AIRecommendations.financialDataOf Binary64.threeIncomes),
      (Binary64.AIRecommendations.financialDataOf (rev Binary64.threeIncomes)).
    repeat match goal with |- _ /\ _ => split end;
      try (vm_compute; reflexivity); float_neq.
  - split; [apply Permutation_rev|].
    exists (Binary64.AIRecommendations.financialDataOf Binary64.fourExpenses),
      (Binary64.AIRecommendations.financialDataOf (rev Binary64.fourExpenses)).
    repeat match goal with |- _ /\ _ => split end;
      try (vm_compute; reflexivity); float_neq.
Qed.

(** C8, amended: [loadFinancialData] is a function of the list of rows: two
    calls on the same non-empty list give the same snapshot, whatever
    snapshot was stored before.  Under a permutation of the rows the
    breakdown keeps its categories, each once; the totals, the balance, the
    savings rate, the trend, the amounts of the breakdown and the top
    category are those of the rows in the order given. *)
Theorem snapshot_is_a_function_of_the_rows
    (txs txs' : list Binary64.Transaction.t)
    (st : option Binary64.AIRecommendations.FinancialData) :
  txs <> [] ->
  Permutation txs txs' ->
  exists d d',
    Binary64.AIRecommendations.loadFinancialData txs st = Some d
    /\ Binary64.AIRecommendations.loadFinancialData txs' st = Some d'
    /\ (forall st2, Binary64.AIRecommendations.loadFinancialData txs st2 = Some d)
    /\ Permutation
         (JsObject.keys (Binary64.AIRecommendations.expenseBreakdown d))
         (JsObject.keys (Binary64.AIRecommendations.expenseBreakdown d'))
    /\ NoDup (JsObject.keys (Binary64.AIRecommendations.expenseBreakdown d))
    /\ NoDup (JsObject.keys (Binary64.AIRecommendations.expenseBreakdown d')).
Proof.
  intros N P.
  assert (N' : txs' <> []).
  { intros ->. apply Permutation_sym, Permutation_nil in P. contradiction. }
  exists (Binary64.AIRecommendations.financialDataOf txs),
    (Binary64.AIRecommendations.financialDataOf txs').
  split; [now apply loadFinancialData64_rows|].
  split; [now apply loadFinancialData64_rows|].
  split; [intro st2; now apply loadFinancialData64_rows|].
  unfold Binary64.AIRecommendations.financialDataOf;
    cbn [Binary64.AIRecommendations.expenseBreakdown].
  fold (Binary64.ofType expense txs) (Binary64.ofType expense txs').
  assert (Pc : Permutation
                 (map Binary64.Transaction.category (Binary64.ofType expense txs))
                 (map Binary64.Transaction.category (Binary64.ofType expense txs')))
    by (apply Permutation_map; now apply filter_Permutation).
  split; [|split; apply NoDup_keys_breakdownOf64].
  apply NoDup_Permutation; try apply NoDup_keys_breakdownOf64.
  intro c. rewrite !In_keys_breakdownOf64. split; intro H.
  - exact (Permutation_in c Pc H).
  - exact (Permutation_in c (Permutation_sym Pc) H).
Qed.

Lemma snapshot_is_a_function_of_the_rows_witness :
  Binary64.fourExpenses <> []
  /\ Permutation Binary64.fourExpenses (rev Binary64.fourExpenses)
  /\ exists d d',
       Binary64.AIRecommendations.loadFinancialData Binary64.fourExpenses None
       = Some d
       /\ Binary64.AIRecommendations.loadFinancialData
            (rev Binary64.fourExpenses) None
          = Some d'
       /\ Permutation
            (JsObject.keys (Binary64.AIRecommendations.expenseBreakdown d))
            (JsObject.keys (Binary64.AIRecommendations.expenseBreakdown d')).
Proof.
  assert (N : Binary64.fourExpenses <> []) by discriminate.
  assert (P : Permutation Binary64.fourExpenses (rev Binary64.fourExpenses))
    by apply Permutation_rev.
  split; [exact N|]. split; [exact P|].
  destruct (snapshot_is_a_function_of_the_rows Binary64.fourExpenses
              (rev Binary64.fourExpenses) None N P)
    as (d & d' & Hd & Hd' & _ & K & _).
  exists d, d'. auto.
Defined.

(** * Further properties of the code *)

(** ** Comparisons and shares *)

Lemma geb_ge (x y : number) : geb x y = true <-> y <= x.
Proof.
  unfold geb. rewrite negb_true_iff. apply ltb_ge.
Qed.

Lemma geb_lt (x y : number) : geb x y = false <-> x < y.
Proof.
  unfold geb. rewrite negb_false_iff. apply ltb_lt.
Qed.

Lemma leb_le (x y : number) : leb x y = true <-> x <= y.
Proof. unfold leb. apply geb_ge. Qed.

Lemma leb_gt (x y : number) : leb x y = false <-> y < x.
Proof. unfold leb. apply geb_lt. Qed.

Lemma Qc_eq_bool_true (x y : number) : Qc_eq_bool x y = true <-> x = y.
Proof.
  split; [apply Qc_eq_bool_correct|].
  intros ->. unfold Qc_eq_bool. destruct (Qc_eq_dec y y); congruence.
Qed.


Lemma share_times (total part : number) :
  0 < total -> part / total * ofZ 100 * total = part * ofZ 100.
Proof.
  intro H. field. intro E. rewrite E in H. exact (Qclt_not_eq _ _ H eq_refl).
Qed.

(** A share of a positive total reaches [k] percent exactly when a
    hundred times the part reaches [k] times the total. *)
Lemma share_ge (total part k : number) :
  0 < total -> (k <= part / total * ofZ 100 <-> k * total <= part * ofZ 100).
Proof.
  intro H. rewrite <- (share_times total part H). split; intro L.
  - apply Qcmult_le_compat_r; [exact L | now apply Qclt_le_weak].
  - eapply Qcmult_lt_0_le_reg_r; eassumption.
Qed.

Lemma share_lt (total part k : number) :
  0 < total -> (part / total * ofZ 100 < k <-> part * ofZ 100 < k * total).
Proof.
  intro H. split; intro L.
  - apply Qcnot_le_lt. intro G. apply (share_ge total part k H) in G.
    exact (Qcle_not_lt _ _ G L).
  - apply Qcnot_le_lt. intro G. apply (share_ge total part k H) in G.
    exact (Qcle_not_lt _ _ G L).
Qed.

Lemma js_div_positive (x y : number) : 0 < y -> js_div x y = Finite (x / y).
Proof.
  intro H. unfold js_div.
  destruct (Qc_eq_bool y 0) eqn:E; trivial.
  apply Qc_eq_bool_true in E. rewrite E in H.
  exfalso. exact (Qclt_not_eq _ _ H eq_refl).
Qed.

(** ** The savings message, the status and the savings tip *)

Lemma In_boostSavings_tips (d : FinancialData) :
  In boostSavings (getPersonalizedTips d) <-> savingsLow d = true.
Proof.
  rewrite getPersonalizedTips_cases. unfold firing, thresholdRules. simpl.
  destruct (savingsLow d), (bigExpense d), (overspent d); simpl;
    intuition discriminate.
Qed.

Lemma ofZ_le (a b : Z) : (a <= b)%Z -> ofZ a <= ofZ b.
Proof.
  intro H. unfold Qcle. rewrite !this_ofZ. now rewrite <- Zle_Qle.
Qed.

Lemma ofZ_lt (a b : Z) : (a < b)%Z -> ofZ a < ofZ b.
Proof.
  intro H. unfold Qclt. rewrite !this_ofZ. now rewrite <- Zlt_Qlt.
Qed.

(** X1: At 20 percent and above the status reads 'On Track', the message is one
    of the two best, and the savings tip is not given; below 20 percent the
    status reads 'Needs Work', the message is one of the other three, and
    the savings tip is given. *)
Theorem status_message_and_tip_agree (d : FinancialData) :
  (savingsStatus d = "On Track" <-> ~ In boostSavings (getPersonalizedTips d))
  /\ (savingsStatus d = "On Track"
      <-> getSavingsMessage (savingsRate d) = "You're a savings superstar! 🌟"
          \/ getSavingsMessage (savingsRate d) = "Great job with your savings! 💪")
  /\ (savingsStatus d = "Needs Work" <-> In boostSavings (getPersonalizedTips d)).
Proof.
  rewrite In_boostSavings_tips.
  unfold savingsStatus, savingsLow, getSavingsMessage.
  destruct (geb (savingsRate d) (ofZ 20)) eqn:G.
  - assert (L : ltb (savingsRate d) (ofZ 20) = false)
      by (apply ltb_ge; now apply geb_ge).
    rewrite L.
    destruct (geb (savingsRate d) (ofZ 30));
      (split; [|split]); split; intro H;
      try reflexivity; try discriminate; try tauto; auto.
  - assert (L : ltb (savingsRate d) (ofZ 20) = true)
      by (apply ltb_lt; now apply geb_lt).
    rewrite L.
    assert (G30 : geb (savingsRate d) (ofZ 30) = false).
    { apply geb_lt. apply geb_lt in G.
      eapply Qclt_trans; [exact G|]. apply ofZ_lt. lia. }
    rewrite G30.
    destruct (geb (savingsRate d) (ofZ 10)), (geb (savingsRate d) 0);
      (split; [|split]); split; intro H;
      try reflexivity; try discriminate; try tauto; auto;
      try (destruct H; discriminate).
Qed.

(** The savings rate of a computed snapshot, by cases on the total income. *)
Lemma financialDataOf_savingsRate (txs : list Transaction.t) :
  let d := financialDataOf txs in
  (0 < totalIncome d -> savingsRate d = balance d / totalIncome d * ofZ 100)
  /\ (totalIncome d <= 0 -> savingsRate d = 0).
Proof.
  unfold financialDataOf; cbn [totalIncome savingsRate balance]. split; intro H.
  - apply gtb_gt in H. now rewrite H.
  - apply gtb_le in H. now rewrite H.
Qed.



(** Linear arithmetic on [Qc], by way of the underlying rationals. *)
Ltac qc_lra :=
  unfold Qcle, Qclt, Qcminus, Qcdiv, Qcplus, Qcmult, Qcopp, ofZ, Q2Qc in *;
  cbn [this] in *;
  rewrite ?Qred_correct in *;
  unfold inject_Z in *;
  lra.

(** ** The tips on a computed snapshot *)

(** X4: In a snapshot that [loadFinancialData] computes a negative balance
    always comes with a savings rate below 20: the overspending tip is
    never given without the savings tip, which then comes first. *)
Theorem overspending_tip_follows_savings_tip (txs : list Transaction.t)
    (st : option FinancialData) :
  txs <> [] ->
  exists d,
    loadFinancialData txs st = Some d
    /\ (In addressOverspending (getPersonalizedTips d) ->
        getPersonalizedTips d
        = (boostSavings
             :: (if bigExpense d then [optimizeBiggest d] else [])
             ++ [addressOverspending])%list).
Proof.
  intro N. exists (financialDataOf txs).
  split; [now apply loadFinancialData_rows|].
  set (d := financialDataOf txs). intro I.
  assert (O : overspent d = true).
  { rewrite getPersonalizedTips_cases in I. unfold firing, thresholdRules in I.
    simpl in I.
    destruct (savingsLow d), (bigExpense d), (overspent d); simpl in I;
      trivial; intuition discriminate. }
  assert (B : balance d < 0) by now apply ltb_lt.
  assert (S : savingsLow d = true).
  { pose proof (financialDataOf_savingsRate txs) as R. cbn zeta in R. fold d in R.
    unfold savingsLow. apply ltb_lt.
    destruct (Qclt_le_dec 0 (totalIncome d)) as [P|P].
    - rewrite (proj1 R P).
      apply Qclt_trans with 0; [|reflexivity].
      apply share_lt; trivial.
      replace (0 * totalIncome d) with 0 by ring. clear - B. qc_lra.
    - rewrite (proj2 R P). reflexivity. }
  rewrite getPersonalizedTips_cases. unfold firing, thresholdRules. simpl.
  rewrite S, O. destruct (bigExpense d); reflexivity.
Qed.

Lemma overspending_tip_follows_savings_tip_witness :
  groceriesOnly <> []
  /\ exists d,
       loadFinancialData groceriesOnly None = Some d
       /\ getPersonalizedTips d
          = (boostSavings
               :: (if bigExpense d then [optimizeBiggest d] else [])
               ++ [addressOverspending])%list.
Proof.
  assert (N : groceriesOnly <> []) by discriminate.
  split; [exact N|].
  destruct (overspending_tip_follows_savings_tip groceriesOnly None N)
    as (d & Hd & T).
  exists d. split; [exact Hd|]. apply T.
  injection Hd as <-. right. right. now left.
Defined.

Lemma In_optimizeBiggest_tips (d : FinancialData) :
  In (optimizeBiggest d) (getPersonalizedTips d) <-> bigExpense d = true.
Proof.
  rewrite getPersonalizedTips_cases. unfold firing, thresholdRules. simpl.
  destruct (savingsLow d), (bigExpense d), (overspent d); simpl;
    intuition discriminate.
Qed.

Lemma amountAt_head k v (o : JsObject.t) : amountAt ((k, v) :: o) k = v.
Proof.
  unfold amountAt. simpl. rewrite String.eqb_refl. apply or_zero_Some.
Qed.

(** ** Advice on a category *)

Lemma share_gt (total part k : number) :
  0 < total -> (k < part / total * ofZ 100 <-> k * total < part * ofZ 100).
Proof.
  intro H. rewrite <- (share_times total part H). split; intro L.
  - now apply Qcmult_lt_compat_r.
  - apply Qcnot_le_lt. intro G.
    apply (Qcmult_le_compat_r _ _ total) in G; [|now apply Qclt_le_weak].
    exact (Qcle_not_lt _ _ G L).
Qed.

(** When more than 40 percent of non-negative total expenses sit in one
    category, the percentage its advice is computed from exceeds every
    threshold of [getExpenseAdvice]. *)
Lemma share_above_40 (amount total k : number) :
  0 <= total -> total * Q2Qc (4 # 10) < amount -> k <= ofZ 40 ->
  quotient_gt (times100 (js_div amount total)) k = true.
Proof.
  intros T B K.
  destruct (Qcle_lt_or_eq _ _ T) as [P|<-].
  - rewrite (js_div_positive _ _ P). cbn [times100 quotient_gt].
    apply gtb_gt. apply share_gt; trivial.
    apply Qcle_lt_trans with (ofZ 40 * total).
    + now apply Qcmult_le_compat_r.
    + clear - B. qc_lra.
  - unfold js_div.
    assert (E : Qc_eq_bool 0 0 = true) by now apply Qc_eq_bool_true.
    rewrite E.
    assert (G : gtb amount 0 = true).
    { apply gtb_gt. clear - B. qc_lra. }
    now rewrite G.
Qed.

(** X6: When the biggest-expense tip is given on non-negative total expenses
    and the category it names is one of the four that [getExpenseAdvice]
    knows, the advice for that category is its specific one, never
    "well-managed". *)
Theorem singled_out_category_gets_advice (d : FinancialData) :
  0 <= totalExpenses d ->
  In (optimizeBiggest d) (getPersonalizedTips d) ->
  In (topExpenseCategory d)
     ["Food & Dining"; "Transportation"; "Shopping"; "Entertainment"] ->
  getExpenseAdvice (topExpenseCategory d) (biggestExpense d) (totalExpenses d)
  <> "This category looks well-managed! ✅".
Proof.
  intros T B C. apply In_optimizeBiggest_tips in B.
  unfold bigExpense in B. apply gtb_gt in B.
  assert (G : forall k, (k <= 40)%Z ->
                        quotient_gt
                          (times100 (js_div (biggestExpense d) (totalExpenses d)))
                          (ofZ k) = true).
  { intros k K. apply share_above_40; trivial. now apply ofZ_le. }
  unfold getExpenseAdvice. cbn zeta.
  rewrite (G 30%Z), (G 25%Z), (G 20%Z), (G 15%Z) by lia.
  simpl in C. destruct C as [<-|[<-|[<-|[<-|[]]]]]; cbn; discriminate.
Qed.

Lemma singled_out_category_gets_advice_witness :
  exists d,
    loadFinancialData groceriesOnly None = Some d
    /\ 0 <= totalExpenses d
    /\ getExpenseAdvice (topExpenseCategory d) (biggestExpense d) (totalExpenses d)
       <> "This category looks well-managed! ✅".
Proof.
  exists (financialDataOf groceriesOnly).
  split; [reflexivity|].
  assert (T : 0 <= totalExpenses (financialDataOf groceriesOnly)) by discriminate.
  split; [exact T|].
  assert (B : In (optimizeBiggest (financialDataOf groceriesOnly))
                 (getPersonalizedTips (financialDataOf groceriesOnly))).
  { apply In_optimizeBiggest_tips. reflexivity. }
  assert (C : In (topExpenseCategory (financialDataOf groceriesOnly))
                 ["Food & Dining"; "Transportation"; "Shopping"; "Entertainment"])
    by (left; reflexivity).
  exact (singled_out_category_gets_advice (financialDataOf groceriesOnly) T B C).
Defined.

(** ** Sorting by amount *)

Section SortByAmountFacts.

Context {A : Type} (amountOf : A -> number).

Lemma insertByAmount_Permutation (x : A) (l : list A) :
  Permutation (x :: l) (insertByAmount amountOf x l).
Proof.
  induction l as [|y l IH]; simpl.
  - apply Permutation_refl.
  - destruct (ltb (amountOf y) (amountOf x)).
    + apply Permutation_refl.
    + eapply perm_trans; [apply perm_swap|]. now apply perm_skip.
Qed.

Lemma fold_insert_Permutation (l acc : list A) :
  Permutation (acc ++ l)
    (fold_left (fun sorted x => insertByAmount amountOf x sorted) l acc).
Proof.
  revert acc. induction l as [|x l IH]; intro acc; simpl.
  - rewrite app_nil_r. apply Permutation_refl.
  - eapply perm_trans; [|apply IH].
    eapply perm_trans; [apply Permutation_sym, Permutation_middle|].
    change (x :: acc ++ l)%list with ((x :: acc) ++ l)%list.
    apply Permutation_app_tail. apply insertByAmount_Permutation.
Qed.

Lemma sortByAmount_Permutation (l : list A) :
  Permutation l (sortByAmount amountOf l).
Proof. apply (fold_insert_Permutation l []). Qed.

Lemma insertByAmount_descending (x : A) (l : list A) :
  descending amountOf l -> descending amountOf (insertByAmount amountOf x l).
Proof.
  unfold descending. induction 1 as [|y l S IH F]; simpl.
  - repeat constructor.
  - destruct (ltb (amountOf y) (amountOf x)) eqn:E.
    + apply ltb_lt in E. constructor; [now constructor|].
      constructor; [now apply Qclt_le_weak|].
      rewrite Forall_forall in *. intros z Hz.
      eapply Qcle_trans; [now apply F | now apply Qclt_le_weak].
    + apply ltb_ge in E. constructor; trivial.
      rewrite Forall_forall in *. intros z Hz.
      apply (Permutation_in z (Permutation_sym (insertByAmount_Permutation x l)))
        in Hz.
      destruct Hz as [<-|Hz]; auto.
Qed.

Lemma fold_insert_descending (l acc : list A) :
  descending amountOf acc ->
  descending amountOf (fold_left (fun sorted x => insertByAmount amountOf x sorted) l acc).
Proof.
  revert acc. induction l as [|x l IH]; intros acc H; simpl; trivial.
  apply IH. now apply insertByAmount_descending.
Qed.

Lemma sortByAmount_descending (l : list A) :
  descending amountOf (sortByAmount amountOf l).
Proof. apply fold_insert_descending. constructor. Qed.

Lemma fold_insert_head (l : list A) : forall a acc,
  hd_error (fold_left (fun sorted x => insertByAmount amountOf x sorted) l (a :: acc))
  = Some (fold_left (pickLarger amountOf) l a).
Proof.
  induction l as [|x l IH]; intros a acc; [reflexivity|].
  cbn [fold_left insertByAmount]. unfold pickLarger at 2, gtb.
  destruct (ltb (amountOf a) (amountOf x)); apply IH.
Qed.

(** The first element after sorting is the first of the largest ones. *)
Lemma sortByAmount_head (first : A) (rest : list A) :
  hd_error (sortByAmount amountOf (first :: rest))
  = Some (fold_left (pickLarger amountOf) rest first).
Proof. unfold sortByAmount. cbn [fold_left insertByAmount]. apply fold_insert_head. Qed.

(** Where the first of the largest elements sits: everything before it is
    strictly smaller, nothing after it is larger. *)
Lemma fold_pickLarger (l : list A) : forall a,
  let r := fold_left (pickLarger amountOf) l a in
  (r = a /\ forall x, In x l -> amountOf x <= amountOf a)
  \/ (exists l1 l2,
        l = (l1 ++ r :: l2)%list
        /\ amountOf a < amountOf r
        /\ (forall x, In x l1 -> amountOf x < amountOf r)
        /\ (forall x, In x l2 -> amountOf x <= amountOf r)).
Proof.
  induction l as [|b l IH]; intro a; cbn zeta.
  - left. simpl. tauto.
  - cbn [fold_left]. unfold pickLarger at 2 4 6 8 10.
    destruct (gtb (amountOf b) (amountOf a)) eqn:G.
    + apply gtb_gt in G. right.
      destruct (IH b) as [(E & L) | (l1 & l2 & E & Lb & L1 & L2)].
      * exists [], l. rewrite E. split; [|split; [|split]]; trivial.
        intros x [].
      * exists (b :: l1), l2. split; [|split; [|split]]; trivial.
        -- simpl. now f_equal.
        -- eapply Qclt_trans; eassumption.
        -- intros x [<-|Hx]; auto.
    + apply gtb_le in G.
      destruct (IH a) as [(E & L) | (l1 & l2 & E & La & L1 & L2)].
      * left. split; trivial. intros x [<-|Hx]; auto.
      * right. exists (b :: l1), l2. split; [|split; [|split]]; trivial.
        -- simpl. now f_equal.
        -- intros x [<-|Hx]; auto. eapply Qcle_lt_trans; eassumption.
Qed.

Lemma first_largest_split (first : A) (rest : list A) :
  let r := fold_left (pickLarger amountOf) rest first in
  exists l1 l2,
    first :: rest = (l1 ++ r :: l2)%list
    /\ (forall x, In x l1 -> amountOf x < amountOf r)
    /\ (forall x, In x l2 -> amountOf x <= amountOf r).
Proof.
  cbn zeta.
  destruct (fold_pickLarger rest first) as [(E & L) | (l1 & l2 & E & La & L1 & L2)].
  - exists [], rest. rewrite E. split; [|split]; trivial. intros x [].
  - exists (first :: l1), l2. split; [|split]; trivial.
    + simpl. now f_equal.
    + intros x [<-|Hx]; auto.
Qed.

End SortByAmountFacts.

(** Sorting commutes with a relabelling that keeps the amounts. *)
Lemma sortByAmount_map {A B : Type} (f : A -> number) (g : B -> number)
    (h : A -> B) (l : list A) :
  (forall x, g (h x) = f x) ->
  sortByAmount g (map h l) = map h (sortByAmount f l).
Proof.
  intro E. unfold sortByAmount.
  assert (I : forall x s, insertByAmount g (h x) (map h s)
                          = map h (insertByAmount f x s)).
  { intros x s. induction s as [|y s IH]; simpl; trivial.
    rewrite !E. destruct (ltb (f y) (f x)); simpl; trivial. now rewrite IH. }
  change (@nil B) with (map h []).
  generalize (@nil A) as acc.
  induction l as [|x l IH]; intro acc; simpl; trivial.
  rewrite I. apply IH.
Qed.

(** ** The rows of "Where Your Money Goes" *)

Lemma In_entry_amountAt (o : JsObject.t) k v :
  NoDup (JsObject.keys o) -> In (k, v) o -> amountAt o k = v.
Proof.
  unfold amountAt. induction o as [|[k' v'] o IH]; intros D I; [destruct I|].
  cbn in D. inversion D as [|? ? D1 D2]. subst. simpl.
  destruct I as [E|I].
  - injection E as -> ->. rewrite String.eqb_refl. apply or_zero_Some.
  - destruct (String.eqb k' k) eqn:E.
    + apply String.eqb_eq in E. subst k'. exfalso. apply D1.
      change k with (fst (k, v)). now apply in_map.
    + now apply IH.
Qed.

Lemma In_key_entry (o : JsObject.t) k :
  In k (JsObject.keys o) -> In (k, amountAt o k) o.
Proof.
  intro I. pose proof (get_amountAt o k I) as G.
  induction o as [|[k' v'] o IH]; [destruct I|].
  simpl in G. destruct (String.eqb k' k) eqn:E.
  - apply String.eqb_eq in E. subst k'. injection G as ->.
    left. f_equal. symmetry. apply amountAt_head.
  - right. apply String.eqb_neq in E. destruct I as [I|I]; [contradiction|].
    assert (A : amountAt ((k', v') :: o) k = amountAt o k).
    { unfold amountAt. simpl. apply String.eqb_neq in E. now rewrite E. }
    rewrite A. apply IH; trivial. rewrite <- A.
    unfold amountAt. simpl. apply String.eqb_neq in E. rewrite E in *.
    rewrite G. now rewrite or_zero_Some.
Qed.

Lemma NoDup_split_unique {A : Type} (x : A) (l1 l2 l1' l2' : list A) :
  NoDup (l1 ++ x :: l2) ->
  (l1 ++ x :: l2 = l1' ++ x :: l2')%list ->
  l1 = l1' /\ l2 = l2'.
Proof.
  revert l1'. induction l1 as [|a l1 IH]; intros l1' D E.
  - destruct l1' as [|a' l1']; simpl in E.
    + injection E as ->. auto.
    + injection E as -> ->. exfalso. simpl in D.
      inversion D as [|? ? D1 _]. apply D1. apply in_elt.
  - destruct l1' as [|a' l1']; simpl in E.
    + injection E as -> <-. exfalso. simpl in D.
      inversion D as [|? ? D1 _]. apply D1. apply in_elt.
    + injection E as -> E. simpl in D. inversion D as [|? ? _ D2].
      destruct (IH l1' D2 E) as [-> ->]. auto.
Qed.

(** X7: The rows shown are the entries of the breakdown, each once, in
    descending order of amount. *)
Theorem breakdown_rows_are_sorted_entries (d : FinancialData) :
  Permutation (JsObject.entries (expenseBreakdown d))
    (map (fun r => (rowCategory r, rowAmount r)) (breakdownRows d))
  /\ descending rowAmount (breakdownRows d).
Proof.
  unfold breakdownRows. split.
  - rewrite map_map. cbn [rowCategory rowAmount].
    rewrite (map_ext _ (fun x => x)) by (intros []; reflexivity).
    rewrite map_id. apply sortByAmount_Permutation.
  - rewrite <- (sortByAmount_map snd rowAmount) by reflexivity.
    apply sortByAmount_descending.
Qed.

(** X8: With at least one expense, the first row shows the biggest expense, and
    its category is the first of the categories holding that amount; it is
    the stored top category exactly when no other category ties with it. *)
Theorem first_row_shows_biggest_expense (txs : list Transaction.t)
    (st : option FinancialData) :
  ofType expense txs <> [] ->
  exists d r rest,
    loadFinancialData txs st = Some d
    /\ breakdownRows d = r :: rest
    /\ rowAmount r = biggestExpense d
    /\ firstLargest (expenseBreakdown d) = Some (rowCategory r)
    /\ (rowCategory r = topExpenseCategory d
        <-> forall k, In k (JsObject.keys (expenseBreakdown d)) ->
                      k <> topExpenseCategory d ->
                      amountAt (expenseBreakdown d) k < biggestExpense d).
Proof.
  intro NE.
  assert (N : txs <> []) by (intros ->; now apply NE).
  exists (financialDataOf txs).
  unfold breakdownRows, financialDataOf;
    cbn [expenseBreakdown totalExpenses biggestExpense topExpenseCategory].
  fold (ofType expense txs).
  pose proof (NoDup_keys_breakdownOf (ofType expense txs)) as D.
  assert (KN : JsObject.keys (breakdownOf (ofType expense txs)) <> []).
  { destruct (ofType expense txs) as [|e es] eqn:X; [congruence|]. intro Z.
    assert (I : In (Transaction.category e)
                   (JsObject.keys (breakdownOf (e :: es))))
      by (apply In_keys_breakdownOf; now left).
    rewrite Z in I. destruct I. }
  set (eb := breakdownOf (ofType expense txs)) in *.
  fold (amountAt eb (topCategoryOf eb)).
  set (total := sumAmounts (ofType expense txs)).
  destruct eb as [|first others] eqn:EB; [now elim KN|]. rewrite <- EB in *.
  pose proof (sortByAmount_head snd first others) as H.
  destruct (first_largest_split snd first others) as (l1 & l2 & S & L1 & L2).
  set (e := fold_left (pickLarger snd) others first) in *.
  unfold JsObject.entries. rewrite EB.
  destruct (sortByAmount snd (first :: others)) as [|e' tail]; [discriminate|].
  injection H as ->. rewrite <- EB.
  eexists. eexists. split; [now apply loadFinancialData_rows|].
  split; [reflexivity|]. cbn [rowAmount rowCategory].
  assert (Ie : In e eb) by (rewrite EB, S; apply in_elt).
  assert (Ae : amountAt eb (fst e) = snd e).
  { apply In_entry_amountAt; trivial. now destruct e. }
  assert (Ik : In (fst e) (JsObject.keys eb)) by now apply in_map.
  assert (Le : forall x, In x eb -> snd x <= snd e).
  { intros x Hx. rewrite EB, S in Hx. apply in_app_or in Hx.
    destruct Hx as [Hx|[<-|Hx]]; auto.
    - now apply Qclt_le_weak, L1.
    - apply Qcle_refl. }
  assert (B : snd e = amountAt eb (topCategoryOf eb)).
  { apply Qcle_antisym.
    - rewrite <- Ae. now apply topCategoryOf_largest.
    - apply (Le (topCategoryOf eb, amountAt eb (topCategoryOf eb))).
      apply In_key_entry. now apply topCategoryOf_In. }
  split; [exact B|]. split; [rewrite EB; reflexivity|].
  split.
  - intros T k Hk Nk.
    destruct (topCategoryOf_split eb KN) as (b & a & Sk & Lb & La).
    assert (Sk' : JsObject.keys eb = (map fst l1 ++ fst e :: map fst l2)%list).
    { unfold JsObject.keys. rewrite EB, S, map_app. reflexivity. }
    rewrite T in Sk'.
    rewrite Sk in D. rewrite Sk in Sk'.
    destruct (NoDup_split_unique _ _ _ _ _ D Sk') as [-> ->].
    rewrite <- Sk in D.
    rewrite Sk in Hk. apply in_app_or in Hk.
    destruct Hk as [Hk|[Hk|Hk]]; [|congruence|now apply La].
    apply in_map_iff in Hk. destruct Hk as (x & <- & Hx).
    rewrite <- B. rewrite (In_entry_amountAt eb (fst x) (snd x)); auto.
    rewrite EB, S. apply in_or_app. left. now destruct x.
  - intro U.
    destruct (string_dec (fst e) (topCategoryOf eb)) as [|Ne]; trivial.
    exfalso. specialize (U _ Ik Ne). rewrite Ae, B in U.
    exact (Qclt_not_eq _ _ U eq_refl).
Qed.

Lemma first_row_shows_biggest_expense_witness :
  ofType expense foodThenShopping <> []
  /\ exists d r rest,
       loadFinancialData foodThenShopping None = Some d
       /\ breakdownRows d = r :: rest
       /\ rowAmount r = biggestExpense d
       /\ firstLargest (expenseBreakdown d) = Some (rowCategory r).
Proof.
  assert (N : ofType expense foodThenShopping <> []) by discriminate.
  split; [exact N|].
  destruct (first_row_shows_biggest_expense foodThenShopping None N)
    as (d & r & rest & Hd & R & A & F & _).
  exists d, r, rest. auto.
Defined.

(** ** The expense chart *)

Lemma categoryTotals_breakdownOf (expenses : list Transaction.t) :
  fold_left CategoryChart.addToCategory expenses JsObject.empty
  = breakdownOf expenses.
Proof. reflexivity. Qed.

(** The items of the chart before they are sorted. *)
Lemma expenseData_sorted_entries (txs : list Transaction.t) :
  map (fun it => (CategoryChart.category it, CategoryChart.amount it))
      (CategoryChart.expenseData txs)
  = sortByAmount snd (breakdownOf (ofType expense txs)).
Proof.
  unfold CategoryChart.expenseData. cbn zeta.
  rewrite categoryTotals_breakdownOf. fold (ofType expense txs).
  unfold JsObject.entries.
  rewrite (sortByAmount_map snd CategoryChart.amount) by reflexivity.
  rewrite map_map. cbn [CategoryChart.category CategoryChart.amount].
  rewrite (map_ext _ (fun x => x)) by (intros []; reflexivity).
  apply map_id.
Qed.


(** X11: The chart and the breakdown card of the analysis page list the same
    categories with the same amounts in the same order. *)
Theorem chart_and_breakdown_rows_agree (txs : list Transaction.t)
    (st : option FinancialData) :
  txs <> [] ->
  exists d,
    loadFinancialData txs st = Some d
    /\ map (fun it => (CategoryChart.category it, CategoryChart.amount it))
           (CategoryChart.expenseData txs)
       = map (fun r => (rowCategory r, rowAmount r)) (breakdownRows d).
Proof.
  intro N. exists (financialDataOf txs).
  split; [now apply loadFinancialData_rows|].
  rewrite expenseData_sorted_entries.
  unfold breakdownRows. rewrite map_map. cbn [rowCategory rowAmount].
  rewrite (map_ext _ (fun x => x)) by (intros []; reflexivity).
  now rewrite map_id.
Qed.

Lemma chart_and_breakdown_rows_agree_witness :
  salaryFoodShopping <> []
  /\ exists d,
       loadFinancialData salaryFoodShopping None = Some d
       /\ map (fun it => (CategoryChart.category it, CategoryChart.amount it))
              (CategoryChart.expenseData salaryFoodShopping)
          = map (fun r => (rowCategory r, rowAmount r)) (breakdownRows d).
Proof.
  split; [discriminate
         | apply (chart_and_breakdown_rows_agree salaryFoodShopping None);
           discriminate].
Defined.

(** X12: Every slice of the chart gets one of the seven colours, and the colours
    repeat from the eighth slice on. *)
Theorem chart_fill_is_defined_and_repeats (index : nat) :
  (exists colour,
     CategoryChart.fill index = Some colour
     /\ In colour CategoryChart.EXPENSE_COLORS)
  /\ CategoryChart.fill (index + 7) = CategoryChart.fill index.
Proof.
  unfold CategoryChart.fill.
  change (List.length CategoryChart.EXPENSE_COLORS) with 7%nat.
  split.
  - assert (L : (index mod 7 < List.length CategoryChart.EXPENSE_COLORS)%nat)
      by (apply Nat.mod_upper_bound; discriminate).
    destruct (nth_error CategoryChart.EXPENSE_COLORS (index mod 7)) as [c|] eqn:E.
    + exists c. split; trivial. eapply nth_error_In; eassumption.
    + apply nth_error_None in E. lia.
  - f_equal. replace (index + 7)%nat with (index + 1 * 7)%nat by lia.
    apply Nat.Div0.mod_add.
Qed.

(** ** The lists of the dashboard under changes *)

(** The totals in terms of sums. *)
Lemma totals_sums (txs : list Transaction.t) (debts : list Debt.t) :
  let t := BudgetDashboard.totals txs debts in
  BudgetDashboard.totalIncome t = sumOf (map Transaction.amount (ofType income txs))
  /\ BudgetDashboard.totalExpenses t
     = sumOf (map Transaction.amount (ofType expense txs))
  /\ BudgetDashboard.balance t
     = sumOf (map Transaction.amount (ofType income txs))
       - sumOf (map Transaction.amount (ofType expense txs))
  /\ BudgetDashboard.totalDebt t = sumOf (map Debt.amount debts)
  /\ BudgetDashboard.monthlyDebtPayment t = sumOf (map Debt.minimumPayment debts)
  /\ BudgetDashboard.availableForDebt t = BudgetDashboard.balance t.
Proof.
  cbn zeta. unfold BudgetDashboard.totals.
  cbn [BudgetDashboard.totalIncome BudgetDashboard.totalExpenses
       BudgetDashboard.balance BudgetDashboard.totalDebt
       BudgetDashboard.monthlyDebtPayment BudgetDashboard.availableForDebt].
  fold (ofType income txs) (ofType expense txs).
  rewrite !(reduce_sum Transaction.amount).
  rewrite (reduce_sum Debt.amount), (reduce_sum Debt.minimumPayment).
  repeat split.
Qed.

(** X14: Deleting a row that was just added, under an id no older row has, gives
    back the list as it was. *)
Theorem deleting_the_added_transaction_restores_the_list
    (data : BudgetDashboard.TransactionRow) (txs : list Transaction.t) :
  (forall t, In t txs -> Transaction.id t <> BudgetDashboard.row_id data) ->
  BudgetDashboard.handleDeleteTransaction true true (BudgetDashboard.row_id data)
    (BudgetDashboard.handleAddTransaction true (Some data) txs)
  = txs.
Proof.
  intro F. cbn [BudgetDashboard.handleAddTransaction
                  BudgetDashboard.handleDeleteTransaction negb filter
                  BudgetDashboard.toTransaction Transaction.id].
  rewrite String.eqb_refl. cbn [negb].
  induction txs as [|t txs IH]; [reflexivity|]. cbn [filter].
  assert (E : String.eqb (Transaction.id t) (BudgetDashboard.row_id data) = false).
  { apply String.eqb_neq. apply F. now left. }
  rewrite E. cbn [negb]. f_equal. apply IH. intros x Hx. apply F. now right.
Qed.

Lemma deleting_the_added_transaction_restores_the_list_witness :
  (forall t, In t salaryFoodShopping ->
             Transaction.id t
             <> BudgetDashboard.row_id
                  (BudgetDashboard.mkTransactionRow "t4" expense (ofZ 40)
                     "Travel" None "2025-01-20"))
  /\ BudgetDashboard.handleDeleteTransaction true true "t4"
       (BudgetDashboard.handleAddTransaction true
          (Some (BudgetDashboard.mkTransactionRow "t4" expense (ofZ 40)
                   "Travel" None "2025-01-20"))
          salaryFoodShopping)
     = salaryFoodShopping.
Proof.
  assert (F : forall t, In t salaryFoodShopping ->
                        Transaction.id t
                        <> BudgetDashboard.row_id
                             (BudgetDashboard.mkTransactionRow "t4" expense (ofZ 40)
                                "Travel" None "2025-01-20")).
  { intros t [<-|[<-|[<-|[]]]]; discriminate. }
  split; [exact F|].
  exact (deleting_the_added_transaction_restores_the_list _ _ F).
Defined.

Lemma filter_other_ids (id : string) (l : list Transaction.t) :
  (forall t, In t l -> Transaction.id t <> id) ->
  filter (fun t => negb (String.eqb (Transaction.id t) id)) l = l.
Proof.
  intro F. induction l as [|t l IH]; [reflexivity|]. cbn [filter].
  assert (E : String.eqb (Transaction.id t) id = false).
  { apply String.eqb_neq. apply F. now left. }
  rewrite E. cbn [negb]. f_equal. apply IH. intros x Hx. apply F. now right.
Qed.

(** X15: With unique ids, deleting a row by its id takes out that row and no
    other: the rows before it and after it stay, in their order.  Without
    a user, or when the store reports an error, the list stays as it is. *)
Theorem deleting_a_transaction_removes_that_row (t : Transaction.t)
    (before after : list Transaction.t) :
  NoDup (map Transaction.id (before ++ t :: after)) ->
  BudgetDashboard.handleDeleteTransaction true true (Transaction.id t)
    (before ++ t :: after)
  = (before ++ after)%list
  /\ (forall user deleted,
        user && deleted = false ->
        BudgetDashboard.handleDeleteTransaction user deleted (Transaction.id t)
          (before ++ t :: after)
        = (before ++ t :: after)%list).
Proof.
  intro D. split.
  - rewrite map_app in D. cbn [map] in D.
    pose proof (NoDup_remove_2 _ _ _ D) as O.
    cbn [BudgetDashboard.handleDeleteTransaction negb].
    rewrite filter_app. cbn [filter]. rewrite String.eqb_refl. cbn [negb].
    rewrite !filter_other_ids; trivial.
    + intros x Hx E. apply O. apply in_or_app. right.
      rewrite <- E. now apply in_map.
    + intros x Hx E. apply O. apply in_or_app. left.
      rewrite <- E. now apply in_map.
  - intros [|] [|] H; try discriminate; reflexivity.
Qed.

Lemma deleting_a_transaction_removes_that_row_witness :
  NoDup (map Transaction.id salaryFoodShopping)
  /\ BudgetDashboard.handleDeleteTransaction true true "t2" salaryFoodShopping
     = [ row "t1" income 5000 "Salary"; row "t3" expense 800 "Shopping" ].
Proof.
  assert (D : NoDup (map Transaction.id salaryFoodShopping)).
  { repeat constructor; simpl; intuition discriminate. }
  split; [exact D|].
  exact (proj1 (deleting_a_transaction_removes_that_row
                  (row "t2" expense 1200 "Food & Dining")
                  [ row "t1" income 5000 "Salary" ]
                  [ row "t3" expense 800 "Shopping" ] D)).
Defined.

(** ** Removing a debt *)

Lemma filterOtherIndex_later {A : Type} (index i : nat) (l : list A) :
  (index < i)%nat -> BudgetDashboard.filterOtherIndex index l i = l.
Proof.
  revert i. induction l as [|x l IH]; intros i H; [reflexivity|].
  cbn [BudgetDashboard.filterOtherIndex].
  assert (E : Nat.eqb i index = false) by (apply Nat.eqb_neq; lia).
  rewrite E. cbn [negb]. f_equal. apply IH. lia.
Qed.

Lemma filterOtherIndex_split {A : Type} (n : nat) : forall (l : list A) (i : nat),
  BudgetDashboard.filterOtherIndex (i + n) l i = (firstn n l ++ skipn (S n) l)%list.
Proof.
  induction n as [|n IH]; intros l i.
  - rewrite Nat.add_0_r. destruct l as [|x l]; [reflexivity|].
    cbn [BudgetDashboard.filterOtherIndex firstn skipn app]. rewrite Nat.eqb_refl. cbn [negb].
    apply filterOtherIndex_later. lia.
  - destruct l as [|x l]; [reflexivity|].
    cbn [BudgetDashboard.filterOtherIndex firstn skipn app].
    assert (E : Nat.eqb i (i + S n) = false) by (apply Nat.eqb_neq; lia).
    rewrite E. cbn [negb]. f_equal.
    replace (i + S n)%nat with (S i + n)%nat by lia. apply IH.
Qed.

(** X16: Removing the debt at a position of the list takes out that debt and no
    other: the debts before it and after it stay, in their order, and the
    list is one shorter; a position outside the list changes nothing, and
    neither does a call without a user or one the store refuses. *)
Theorem removing_a_debt_by_position (index : nat) (debts : list Debt.t) :
  ((List.length debts <= index)%nat ->
   forall user deleted,
     BudgetDashboard.handleDeleteDebt user deleted index debts = debts)
  /\ (forall user deleted,
        user && deleted = false ->
        BudgetDashboard.handleDeleteDebt user deleted index debts = debts)
  /\ (forall debt,
        nth_error debts index = Some debt ->
        let after := BudgetDashboard.handleDeleteDebt true true index debts in
        after = (firstn index debts ++ skipn (S index) debts)%list
        /\ debts = (firstn index debts ++ debt :: skipn (S index) debts)%list
        /\ S (List.length after) = List.length debts).
Proof.
  split; [|split].
  - intros L user deleted. unfold BudgetDashboard.handleDeleteDebt.
    apply nth_error_None in L. now rewrite L.
  - intros user deleted H. unfold BudgetDashboard.handleDeleteDebt.
    destruct (nth_error debts index); trivial.
    destruct user, deleted; try discriminate; reflexivity.
  - intros debt H. cbn zeta.
    assert (E : BudgetDashboard.handleDeleteDebt true true index debts
                = (firstn index debts ++ skipn (S index) debts)%list).
    { unfold BudgetDashboard.handleDeleteDebt. rewrite H. cbn [negb].
      apply (filterOtherIndex_split index debts 0). }
    rewrite E. split; [reflexivity|].
    destruct (nth_error_split debts index H) as (l1 & l2 & S & L).
    assert (F : firstn index debts = l1).
    { rewrite S, <- L. rewrite firstn_app, Nat.sub_diag, firstn_all. cbn.
      apply app_nil_r. }
    assert (K : skipn (Datatypes.S index) debts = l2).
    { rewrite S, <- L.
      change (l1 ++ debt :: l2)%list with (l1 ++ [debt] ++ l2)%list.
      rewrite app_assoc.
      replace (Datatypes.S (List.length l1)) with (List.length (l1 ++ [debt]))
        by (rewrite length_app; simpl; lia).
      rewrite skipn_app, Nat.sub_diag, skipn_all. reflexivity. }
    rewrite F, K. split; [exact S|].
    rewrite S, !length_app. simpl. lia.
Qed.

Lemma removing_a_debt_by_position_witness :
  nth_error carLoan 0
  = Some (Debt.mk "d1" (ofZ 10000) (ofZ 5) (ofZ 500) "Car loan" "2025-01-01")
  /\ BudgetDashboard.handleDeleteDebt true true 0 carLoan = [].
Proof.
  assert (H : nth_error carLoan 0
              = Some (Debt.mk "d1" (ofZ 10000) (ofZ 5) (ofZ 500) "Car loan"
                        "2025-01-01")) by reflexivity.
  split; [exact H|].
  exact (proj1 (proj2 (proj2 (removing_a_debt_by_position 0 carLoan)) _ H)).
Defined.

(** ** The insight cards of the dashboard *)

Lemma Qcdiv_pos (x y : number) : 0 < x -> 0 < y -> 0 < x / y.
Proof.
  unfold Qclt, Qcdiv, Qcmult, Qcinv, Q2Qc. cbn [this].
  rewrite !Qred_correct. intros X Y.
  apply Qmult_lt_0_compat; [exact X | now apply Qinv_lt_0_compat].
Qed.

(** On the totals, with non-negative amounts: the spending status is
    'Over Budget' exactly when the assessment reads "Needs Attention",
    which is exactly when the balance is negative. *)
Lemma over_budget_on_totals (txs : list Transaction.t) (debts : list Debt.t) :
  nonNegativeAmounts txs ->
  let t := BudgetDashboard.totals txs debts in
  (BudgetDashboard.spendingStatus t = "Over Budget"
   <-> BudgetDashboard.incomeAssessment t = "Needs Attention")
  /\ (BudgetDashboard.spendingStatus t = "Over Budget"
      <-> BudgetDashboard.balance t < 0).
Proof.
  intros H t.
  destruct (totals_sums txs debts) as (I & E & B & _). fold t in I, E, B.
  pose proof (sumOf_nonneg _ (nonNegativeAmounts_ofType income txs H)) as Pi.
  rewrite <- I in Pi. rewrite <- I, <- E in B.
  unfold BudgetDashboard.spendingStatus, BudgetDashboard.incomeAssessment.
  set (inc := BudgetDashboard.totalIncome t) in *.
  set (ex := BudgetDashboard.totalExpenses t) in *.
  set (bal := BudgetDashboard.balance t) in *.
  clearbody inc ex bal. subst bal.
  destruct (geb (inc - ex) 0) eqn:G.
  - apply geb_ge in G.
    assert (L : leb ex inc = true) by (apply leb_le; clear - G; qc_lra).
    rewrite L.
    assert (NB : ~ inc - ex < 0) by (now apply Qcle_not_lt).
    destruct (leb ex (inc * Q2Qc (8 # 10)));
      destruct (quotient_ge _ _);
      split; split; intro X; try discriminate; contradiction.
  - apply geb_lt in G.
    assert (L : leb ex inc = false) by (apply leb_gt; clear - G; qc_lra).
    assert (L8 : leb ex (inc * Q2Qc (8 # 10)) = false)
      by (apply leb_gt; clear - G Pi; qc_lra).
    rewrite L, L8. split; split; intro X; trivial.
Qed.

(** X17: With non-negative amounts, at least one income row and at least one
    expense row, so that both the income insights and the expense insights
    are rendered, the two agree on overspending: the spending status reads
    'Over Budget' exactly when the assessment reads "Needs Attention",
    which is exactly when the balance is negative. *)
Theorem over_budget_is_needs_attention (txs : list Transaction.t)
    (debts : list Debt.t) :
  nonNegativeAmounts txs ->
  BudgetDashboard.incomeInsightsShown txs = true ->
  BudgetDashboard.expenseInsightsShown txs = true ->
  (BudgetDashboard.spendingStatusShown txs debts = Some "Over Budget"
   <-> BudgetDashboard.incomeAssessmentShown txs debts = Some "Needs Attention")
  /\ (BudgetDashboard.spendingStatusShown txs debts = Some "Over Budget"
      <-> BudgetDashboard.balance (BudgetDashboard.totals txs debts) < 0).
Proof.
  intros H Hi He.
  destruct (over_budget_on_totals txs debts H) as (A & B).
  unfold BudgetDashboard.spendingStatusShown, BudgetDashboard.incomeAssessmentShown.
  rewrite Hi, He. split; split; intro X.
  - f_equal. apply A. now injection X.
  - f_equal. apply A. now injection X.
  - apply B. now injection X.
  - f_equal. now apply B.
Qed.

Lemma over_budget_is_needs_attention_witness :
  nonNegativeAmounts salaryBelowRent
  /\ BudgetDashboard.incomeInsightsShown salaryBelowRent = true
  /\ BudgetDashboard.expenseInsightsShown salaryBelowRent = true
  /\ BudgetDashboard.spendingStatusShown salaryBelowRent [] = Some "Over Budget"
  /\ BudgetDashboard.incomeAssessmentShown salaryBelowRent []
     = Some "Needs Attention".
Proof.
  assert (H : nonNegativeAmounts salaryBelowRent)
    by (repeat constructor; discriminate).
  assert (Hi : BudgetDashboard.incomeInsightsShown salaryBelowRent = true)
    by reflexivity.
  assert (He : BudgetDashboard.expenseInsightsShown salaryBelowRent = true)
    by reflexivity.
  split; [exact H|]. split; [exact Hi|]. split; [exact He|].
  destruct (over_budget_is_needs_attention salaryBelowRent [] H Hi He)
    as ((A & _) & _).
  assert (S : BudgetDashboard.spendingStatusShown salaryBelowRent []
              = Some "Over Budget") by reflexivity.
  split; [exact S | exact (A S)].
Defined.

(** X19: The savings rate on the dashboard and in the snapshot of the analysis
    page: with a positive total income both are the same number; with a
    total income of 0 the snapshot holds 0 while the dashboard's quotient
    is not a finite number. *)
Theorem savings_rate_on_both_pages (txs : list Transaction.t) (debts : list Debt.t)
    (st : option FinancialData) :
  txs <> [] ->
  exists d,
    loadFinancialData txs st = Some d
    /\ (0 < totalIncome d ->
        BudgetDashboard.savingsRateShown (BudgetDashboard.totals txs debts)
        = toFixed 1 (Finite (savingsRate d)))
    /\ (totalIncome d = 0 ->
        savingsRate d = 0
        /\ forall q,
             BudgetDashboard.savingsRateShown (BudgetDashboard.totals txs debts)
             <> toFixed 1 (Finite q)).
Proof.
  intro N. exists (financialDataOf txs).
  split; [now apply loadFinancialData_rows|].
  destruct (financialDataOf_savingsRate txs) as (R1 & R0).
  unfold BudgetDashboard.savingsRateShown.
  assert (Ei : BudgetDashboard.totalIncome (BudgetDashboard.totals txs debts)
               = totalIncome (financialDataOf txs)) by reflexivity.
  assert (Eb : BudgetDashboard.balance (BudgetDashboard.totals txs debts)
               = balance (financialDataOf txs)) by reflexivity.
  rewrite Ei, Eb. split.
  - intro P. rewrite (R1 P), (js_div_positive _ _ P). reflexivity.
  - intro Z. split.
    + apply R0. rewrite Z. apply Qcle_refl.
    + intros q. rewrite Z. unfold js_div.
      assert (E : Qc_eq_bool 0 0 = true) by now apply Qc_eq_bool_true.
      rewrite E.
      destruct (gtb (balance (financialDataOf txs)) 0);
        [|destruct (ltb (balance (financialDataOf txs)) 0)];
        discriminate.
Qed.

Lemma savings_rate_on_both_pages_witness :
  salaryFoodShopping <> []
  /\ exists d,
       loadFinancialData salaryFoodShopping None = Some d
       /\ BudgetDashboard.savingsRateShown (BudgetDashboard.totals salaryFoodShopping [])
          = toFixed 1 (Finite (savingsRate d)).
Proof.
  assert (N : salaryFoodShopping <> []) by discriminate.
  split; [exact N|].
  destruct (savings_rate_on_both_pages salaryFoodShopping [] None N)
    as (d & Hd & S & _).
  exists d. split; [exact Hd|]. apply S. injection Hd as <-. reflexivity.
Defined.

(** X20: The debt cards: a timeline in months is shown only when the status is
    'Can Afford Payments'; the status is 'Can Afford Payments' while the
    timeline says 'Focus on income first' exactly when what is available
    equals the monthly minimum; and when the strategy is shown (positive
    total debt) a timeline in months counts at least one month. *)
Theorem debt_status_and_timeline (t : BudgetDashboard.Totals) :
  (forall m, BudgetDashboard.debtFreeTimeline t = BudgetDashboard.Months m ->
             BudgetDashboard.debtStatus t = "Can Afford Payments")
  /\ (BudgetDashboard.debtStatus t = "Can Afford Payments"
      /\ BudgetDashboard.debtFreeTimeline t = BudgetDashboard.FocusOnIncomeFirst
      <-> BudgetDashboard.availableForDebt t = BudgetDashboard.monthlyDebtPayment t)
  /\ (BudgetDashboard.debtStrategyShown t = true ->
      forall m, BudgetDashboard.debtFreeTimeline t = BudgetDashboard.Months m ->
                (1 <= m)%Z).
Proof.
  unfold BudgetDashboard.debtStatus, BudgetDashboard.canAffordPayments,
    BudgetDashboard.debtFreeTimeline, BudgetDashboard.debtStrategyShown.
  set (a := BudgetDashboard.availableForDebt t).
  set (p := BudgetDashboard.monthlyDebtPayment t).
  set (total := BudgetDashboard.totalDebt t).
  destruct (gtb a p) eqn:G.
  - apply gtb_gt in G.
    assert (C : geb a p = true) by (apply geb_ge; now apply Qclt_le_weak).
    rewrite C. split; [reflexivity|]. split.
    + split; [intros [_ X]; discriminate|].
      intro E. rewrite E in G. exfalso. exact (Qclt_not_eq _ _ G eq_refl).
    + intros S m M. injection M as <-. apply gtb_gt in S.
      assert (X : 0 < total / (a - p)).
      { apply Qcdiv_pos; trivial. clear - G. qc_lra. }
      destruct (Math_ceil_isCeilingOf (total / (a - p))) as (_ & U).
      assert (Z : ofZ 0 < ofZ (Math_ceil (total / (a - p))))
        by (eapply Qclt_le_trans; eassumption).
      unfold Qclt in Z. rewrite !this_ofZ in Z. rewrite <- Zlt_Qlt in Z. lia.
  - apply gtb_le in G. split; [intros m X; discriminate|]. split.
    + split.
      * intros [C _]. destruct (geb a p) eqn:C'; [|discriminate].
        apply geb_ge in C'. now apply Qcle_antisym.
      * intro E. rewrite E.
        assert (C : geb p p = true) by (apply geb_ge, Qcle_refl).
        now rewrite C.
    + intros _ m X. discriminate.
Qed.

Lemma debt_status_and_timeline_witness :
  BudgetDashboard.debtStrategyShown (BudgetDashboard.totals salaryFoodShopping carLoan)
  = true
  /\ BudgetDashboard.debtFreeTimeline (BudgetDashboard.totals salaryFoodShopping carLoan)
     = BudgetDashboard.Months 4
  /\ (1 <= 4)%Z.
Proof.
  assert (S : BudgetDashboard.debtStrategyShown
                (BudgetDashboard.totals salaryFoodShopping carLoan) = true)
    by reflexivity.
  assert (M : BudgetDashboard.debtFreeTimeline
                (BudgetDashboard.totals salaryFoodShopping carLoan)
              = BudgetDashboard.Months 4) by reflexivity.
  split; [exact S|]. split; [exact M|].
  exact (proj2 (proj2 (debt_status_and_timeline
                         (BudgetDashboard.totals salaryFoodShopping carLoan)))
           S 4%Z M).
Defined.

(** ** Onboarding *)




(** ** The goals of the profile form *)

(** X23: Ticking a goal makes the list include it, unticking makes the list not
    include it; neither changes whether another goal is included; and
    ticking a goal that was not included and unticking it again gives back
    the list as it was. *)
Theorem goal_toggle (goal : string) (financialGoals : list string) :
  ProfileForm.includes (ProfileForm.handleGoalChange goal true financialGoals) goal
  = true
  /\ ProfileForm.includes (ProfileForm.handleGoalChange goal false financialGoals) goal
     = false
  /\ (forall other checked,
        other <> goal ->
        ProfileForm.includes
          (ProfileForm.handleGoalChange goal checked financialGoals) other
        = ProfileForm.includes financialGoals other)
  /\ (ProfileForm.includes financialGoals goal = false ->
      ProfileForm.handleGoalChange goal false
        (ProfileForm.handleGoalChange goal true financialGoals)
      = financialGoals).
Proof.
  unfold ProfileForm.includes, ProfileForm.handleGoalChange.
  split; [|split; [|split]].
  - rewrite existsb_app. simpl. rewrite String.eqb_refl.
    now rewrite orb_true_r.
  - induction financialGoals as [|g l IH]; [reflexivity|]. cbn [filter].
    destruct (String.eqb g goal) eqn:E; cbn [negb]; trivial.
    cbn [existsb]. now rewrite E, IH.
  - intros other checked N. destruct checked.
    + rewrite existsb_app. simpl.
      assert (E : String.eqb goal other = false)
        by (apply String.eqb_neq; congruence).
      rewrite E. now rewrite !orb_false_r.
    + induction financialGoals as [|g l IH]; [reflexivity|]. cbn [filter].
      destruct (String.eqb g goal) eqn:E; cbn [negb existsb].
      * apply String.eqb_eq in E. subst g.
        assert (E : String.eqb goal other = false)
          by (apply String.eqb_neq; congruence).
        now rewrite E, IH.
      * now rewrite IH.
  - intro H. rewrite filter_app. cbn [filter]. rewrite String.eqb_refl.
    cbn [negb]. rewrite app_nil_r.
    induction financialGoals as [|g l IH]; [reflexivity|].
    cbn [existsb] in H. apply orb_false_elim in H. destruct H as (E & H).
    cbn [filter]. rewrite E. cbn [negb]. f_equal. now apply IH.
Qed.

Lemma goal_toggle_witness :
  ProfileForm.includes ["Travel"; "Education"] "Home Purchase" = false
  /\ ProfileForm.handleGoalChange "Home Purchase" false
       (ProfileForm.handleGoalChange "Home Purchase" true ["Travel"; "Education"])
     = ["Travel"; "Education"].
Proof.
  assert (H : ProfileForm.includes ["Travel"; "Education"] "Home Purchase" = false)
    by reflexivity.
  split; [exact H|].
  exact (proj2 (proj2 (proj2 (goal_toggle "Home Purchase" ["Travel"; "Education"]))) H).
Defined.
